(** * NouncilBot: the presence-triggered recording state machine

    A shallow embedding of [bot/bot.py] (class [AutoRecordBot]) and of the
    shutdown path of [bot/main.py], and the properties of the recording
    session: exclusivity, stop and cleanup, the quorum rule of
    [check_channel], the flushed payload, the files left on disk and the
    two stop commands.

    The bot object is a record of its six session attributes.  Every
    coroutine becomes a computation in a small monad that threads the bot,
    appends to a trace of the calls made on the outside world (voice
    gateway, audio device, file system, text channels, logger) and may end
    by raising.  Whether an outside call raises is read from a record, one
    field per call site.

    The coroutines come in two layers.  The first takes [wave.open] and
    the release calls of [cleanup_recording] to return, and runs each
    handler to its end before the next one starts; it carries the
    properties that do not turn on these calls.  Module [Full] lets every
    outside call raise, opens the file before it is written, and splits
    [start_recording] at its first [await], so that a second start can be
    handled while the first waits for its connection.  The two layers
    agree when the five calls return. *)

From Stdlib Require Import List String Bool Arith ZArith Lia.
From Stdlib.Strings Require Import Byte.
Import ListNotations.

Set Implicit Arguments.
Open Scope string_scope.
Open Scope list_scope.

(** ** Data *)

(** A guild member as [check_channel] sees it: only [m.bot] is read. *)
Record Member := { bot : bool }.

(** A voice channel: its id and the current occupants. *)
Record Channel := { chan_id : nat; members : list Member }.

(** [a == b] on channels compares ids. *)
Definition channel_eqb (a b : Channel) : bool :=
  Nat.eqb (chan_id a) (chan_id b).

(** [a == b] where either side may be [None]. *)
Definition py_eq (a b : option Channel) : bool :=
  match a, b with
  | Some x, Some y => channel_eqb x y
  | None, None => true
  | _, _ => false
  end.

(** The handles the session owns.  They are plain objects, so
    [if self.stream:] asks whether the attribute is [None]. *)
Inductive VoiceClient := VoiceClientOf (c : Channel).
Inductive PyAudio := PyAudioHandle.
Inductive Stream := StreamHandle.

(** One chunk read from the device. *)
Definition Frame := list byte.

(** The attributes set in [AutoRecordBot.__init__]. *)
Record Bot := {
  recording : bool;
  voice_client : option VoiceClient;
  current_recording_channel : option Channel;
  frames : list Frame;
  audio : option PyAudio;
  stream : option Stream
}.

(** The bot as [__init__] leaves it. *)
Definition init_bot : Bot :=
  {| recording := false; voice_client := None;
     current_recording_channel := None; frames := [];
     audio := None; stream := None |}.

Definition set_recording (b : bool) (s : Bot) : Bot :=
  {| recording := b; voice_client := voice_client s;
     current_recording_channel := current_recording_channel s;
     frames := frames s; audio := audio s; stream := stream s |}.

Definition set_voice_client (v : option VoiceClient) (s : Bot) : Bot :=
  {| recording := recording s; voice_client := v;
     current_recording_channel := current_recording_channel s;
     frames := frames s; audio := audio s; stream := stream s |}.

Definition set_current_recording_channel (c : option Channel) (s : Bot) : Bot :=
  {| recording := recording s; voice_client := voice_client s;
     current_recording_channel := c;
     frames := frames s; audio := audio s; stream := stream s |}.

Definition set_frames (f : list Frame) (s : Bot) : Bot :=
  {| recording := recording s; voice_client := voice_client s;
     current_recording_channel := current_recording_channel s;
     frames := f; audio := audio s; stream := stream s |}.

Definition set_audio (a : option PyAudio) (s : Bot) : Bot :=
  {| recording := recording s; voice_client := voice_client s;
     current_recording_channel := current_recording_channel s;
     frames := frames s; audio := a; stream := stream s |}.

Definition set_stream (st : option Stream) (s : Bot) : Bot :=
  {| recording := recording s; voice_client := voice_client s;
     current_recording_channel := current_recording_channel s;
     frames := frames s; audio := audio s; stream := st |}.

(** The constants of [config/config.py] that the session uses. *)
Record Config := {
  FORMAT : string;
  CHANNELS : Z;
  RATE : Z;
  CHUNK : Z;
  RECORDINGS_DIR : string
}.

(** What the invoking user of a command looks like to [stop] and
    [force_stop]: [ctx.author.voice] (absent when the user is in no voice
    channel) and [ctx.author.guild_permissions.administrator]. *)
Record VoiceState := { vs_channel : option Channel }.
Record Author := { voice : option VoiceState; administrator : bool }.
Record Context := { author : Author }.

(** ** Calls on the outside world *)

Inductive Task :=
| RecordLoop
| StopRecording (auto_stopped error : bool).

Inductive Level := Info | Error.

Inductive Call :=
| Connect (c : Channel)
| PyAudioNew
| StreamOpen (fmt : string) (channels rate chunk : Z)
| StreamRead (chunk : Z)
| StreamStop
| StreamClose
| AudioTerminate
| Disconnect (vc : VoiceClient)
| ChannelSend (c : Channel) (text : string)
| CtxSend (text : string)
| WriteWav (dir file : string) (channels : Z) (fmt : string) (rate : Z)
           (payload : list byte)
| CreateTask (t : Task)
| Log (lvl : Level) (text : string)
| WaveOpen (dir file : string).

(** A call that returned, or one that raised. *)
Inductive Effect :=
| Did (c : Call)
| Threw (c : Call).

Definition Trace := list Effect.

(** The outcome of the outside calls of one coroutine run, one field per
    call site: [false] makes the call raise.  [read_data] is what
    [stream.read] returns ([None]: it raises) and [now] is the formatted
    [datetime.now()]. *)
Record Env := {
  connect_ok : bool;
  pyaudio_ok : bool;
  open_ok : bool;
  announce_ok : bool;
  read_data : option Frame;
  now : string;
  flush_ok : bool;
  reason_send_ok : bool;
  saved_send_ok : bool;
  error_send_ok : bool;
  ctx_send_ok : bool
}.

(** ** The monad of coroutines *)

Inductive result (A : Type) :=
| Returned (a : A)
| Raised.
Arguments Raised {A}.

Definition M (A : Type) : Type := Bot -> result A * Bot * Trace.

Definition ret {A} (a : A) : M A := fun s => (Returned a, s, []).

Definition bind {A B} (m : M A) (f : A -> M B) : M B :=
  fun s =>
    match m s with
    | (Returned a, s1, t1) =>
        let '(r, s2, t2) := f a s1 in (r, s2, t1 ++ t2)
    | (Raised, s1, t1) => (Raised, s1, t1)
    end.

Definition raise {A} : M A := fun s => (Raised, s, []).

Definition gets {A} (f : Bot -> A) : M A := fun s => (Returned (f s), s, []).

Definition modify (f : Bot -> Bot) : M unit := fun s => (Returned tt, f s, []).

Definition emit (e : Effect) : M unit := fun s => (Returned tt, s, [e]).

(** A call that cannot raise. *)
Definition did (c : Call) : M unit := emit (Did c).

(** A call that raises when [ok] is [false]. *)
Definition call (c : Call) (ok : bool) : M unit :=
  if ok then emit (Did c) else bind (emit (Threw c)) (fun _ => raise).

(** [try: body  except Exception: handler] *)
Definition try_except {A} (body handler : M A) : M A :=
  fun s =>
    match body s with
    | (Returned a, s1, t1) => (Returned a, s1, t1)
    | (Raised, s1, t1) =>
        let '(r, s2, t2) := handler s1 in (r, s2, t1 ++ t2)
    end.

(** [try: body  finally: final] : [final] runs on both exits of [body];
    an exception of [body] goes on after it. *)
Definition try_finally {A} (body : M A) (final : M unit) : M A :=
  fun s =>
    let '(r, s1, t1) := body s in
    match final s1 with
    | (Returned _, s2, t2) => (r, s2, t1 ++ t2)
    | (Raised, s2, t2) => (Raised, s2, t1 ++ t2)
    end.

Declare Scope coroutine_scope.
Delimit Scope coroutine_scope with co.
Notation "x <- m ;; k" := (bind m (fun x => k))
  (at level 61, m at next level, right associativity) : coroutine_scope.
Notation "m ;; k" := (bind m (fun _ => k))
  (at level 61, right associativity) : coroutine_scope.
Open Scope coroutine_scope.

(** The three components of a finished run. *)
Definition outcome {A} (x : result A * Bot * Trace) : result A := fst (fst x).
Definition final {A} (x : result A * Bot * Trace) : Bot := snd (fst x).
Definition trace {A} (x : result A * Bot * Trace) : Trace := snd x.

(** ** The coroutines of [AutoRecordBot] *)

(** The announcement, with the sign the source text starts with, as the
    bytes of the source file. *)
Definition MSG_STARTED : string :=
  "ðŸŽ™ï¸ Recording started - 3 or more members detected in channel".
Definition MSG_QUORUM_LOST : string :=
  "Recording stopped - less than 3 members in channel".
Definition MSG_ERROR_STOP : string := "Recording stopped due to an error".
Definition MSG_MANUAL_STOP : string := "Recording stopped manually".
Definition MSG_SAVE_FAILED : string := "Error saving recording".
Definition MSG_NOT_RECORDING : string := "Not currently recording!".
Definition MSG_STOPPED_BY_COMMAND : string := "Recording stopped by command".
Definition MSG_NOT_IN_CHANNEL : string :=
  "You must be in the recording channel to stop it".
Definition MSG_FORCE_STOPPED : string := "Recording force stopped by admin".
Definition MSG_ADMIN_ONLY : string :=
  "Only administrators can force stop recordings".

(** [len([m for m in channel.members if not m.bot])] *)
Definition member_count (channel : Channel) : nat :=
  List.length (filter (fun m => negb (bot m)) (members channel)).

(** [b''.join(frames)] *)
Definition join (fs : list Frame) : list byte := List.concat fs.

Section Coroutines.

Variable cfg : Config.
Variable env : Env.

(** [cleanup_recording]: the three guarded releases, then the six
    assignments.  The release calls are taken to return. *)
Definition cleanup_recording : M unit :=
  st <- gets stream ;;
  match st with
  | Some _ => did StreamStop ;; did StreamClose
  | None => ret tt
  end ;;
  au <- gets audio ;;
  match au with
  | Some _ => did AudioTerminate
  | None => ret tt
  end ;;
  vc <- gets voice_client ;;
  match vc with
  | Some v => did (Disconnect v)
  | None => ret tt
  end ;;
  modify (set_stream None) ;;
  modify (set_audio None) ;;
  modify (set_voice_client None) ;;
  modify (set_current_recording_channel None) ;;
  modify (set_frames []) ;;
  modify (set_recording false).

(** [announce_recording_start]: a failed send is logged and swallowed. *)
Definition announce_recording_start (channel : Channel) : M unit :=
  try_except
    (call (ChannelSend channel MSG_STARTED) (announce_ok env))
    (did (Log Error "Could not send start announcement: ")).

(** [start_recording] *)
Definition start_recording (channel : Channel) : M unit :=
  r <- gets recording ;;
  if r then ret tt
  else
    try_except
      (call (Connect channel) (connect_ok env) ;;
       modify (set_voice_client (Some (VoiceClientOf channel))) ;;
       modify (set_current_recording_channel (Some channel)) ;;
       call PyAudioNew (pyaudio_ok env) ;;
       modify (set_audio (Some PyAudioHandle)) ;;
       call (StreamOpen (FORMAT cfg) (CHANNELS cfg) (RATE cfg) (CHUNK cfg))
            (open_ok env) ;;
       modify (set_stream (Some StreamHandle)) ;;
       modify (set_recording true) ;;
       modify (set_frames []) ;;
       announce_recording_start channel ;;
       did (CreateTask RecordLoop) ;;
       did (Log Info "Started recording in channel: "))
      (did (Log Error "Error starting recording: ") ;;
       cleanup_recording).

(** The [with wave.open(...)] block of [stop_recording]: it needs
    [self.audio] for the sample width, and raises without it.  The
    opening of the file is taken to return and is not traced. *)
Definition write_wav (filename : string) : M unit :=
  fs <- gets frames ;;
  au <- gets audio ;;
  let w := WriteWav (RECORDINGS_DIR cfg) (filename ++ ".wav")%string
                    (CHANNELS cfg) (FORMAT cfg) (RATE cfg) (join fs) in
  match au with
  | Some _ => call w (flush_ok env)
  | None => call w false
  end.

(** [await channel.send(text)] where [channel] may be [None]. *)
Definition channel_send (channel : option Channel) (text : string)
                        (ok : bool) : M unit :=
  match channel with
  | Some c => call (ChannelSend c text) ok
  | None => raise
  end.

(** The text chosen by the [if auto_stopped / elif error / else]. *)
Definition stop_notice (auto_stopped error : bool) : string :=
  if auto_stopped then MSG_QUORUM_LOST
  else if error then MSG_ERROR_STOP
  else MSG_MANUAL_STOP.

(** [stop_recording] *)
Definition stop_recording (auto_stopped error : bool) : M unit :=
  r <- gets recording ;;
  if negb r then ret tt
  else
    modify (set_recording false) ;;
    channel <- gets current_recording_channel ;;
    try_finally
      (try_except
         (fs <- gets frames ;;
          match fs with
          | [] => ret tt
          | _ :: _ =>
              let filename := ("nouncil_recording_" ++ now env)%string in
              write_wav filename ;;
              did (Log Info "Saved recording to ") ;;
              channel_send channel (stop_notice auto_stopped error)
                           (reason_send_ok env) ;;
              channel_send channel ("Recording saved as: " ++ filename)%string
                           (saved_send_ok env)
          end)
         (did (Log Error "Error saving recording: ") ;;
          match channel with
          | Some c => call (ChannelSend c MSG_SAVE_FAILED) (error_send_ok env)
          | None => ret tt
          end))
      cleanup_recording.

(** [check_channel] *)
Definition check_channel (channel : Channel) : M unit :=
  let n := member_count channel in
  r <- gets recording ;;
  cur <- gets current_recording_channel ;;
  if (3 <=? n)%nat && negb r then start_recording channel
  else if (n <? 3)%nat && r && py_eq cur (Some channel)
       then stop_recording true false
       else ret tt.

(** One turn of the [while self.recording] loop of [record_loop], inside
    its [try]; the result tells whether the loop goes on. *)
Definition record_loop_iteration : M bool :=
  try_except
    (r <- gets recording ;;
     if r then
       st <- gets stream ;;
       match st with
       | None => raise
       | Some _ =>
           match read_data env with
           | Some data =>
               did (StreamRead (CHUNK cfg)) ;;
               fs <- gets frames ;;
               modify (set_frames (fs ++ [data])) ;;
               ret true
           | None => emit (Threw (StreamRead (CHUNK cfg))) ;; raise
           end
       end
     else ret false)
    (did (Log Error "Error in recording loop: ") ;;
     stop_recording false true ;;
     ret false).

(** [ctx.author.voice and ctx.author.voice.channel == self.current_recording_channel] *)
Definition author_in_channel (ctx : Context) (cur : option Channel) : bool :=
  match voice (author ctx) with
  | Some v => py_eq (vs_channel v) cur
  | None => false
  end.

(** The [!stop] command. *)
Definition stop (ctx : Context) : M unit :=
  r <- gets recording ;;
  if negb r then call (CtxSend MSG_NOT_RECORDING) (ctx_send_ok env)
  else
    cur <- gets current_recording_channel ;;
    if author_in_channel ctx cur then
      stop_recording false false ;;
      call (CtxSend MSG_STOPPED_BY_COMMAND) (ctx_send_ok env)
    else call (CtxSend MSG_NOT_IN_CHANNEL) (ctx_send_ok env).

(** The [!forcestop] command. *)
Definition force_stop (ctx : Context) : M unit :=
  r <- gets recording ;;
  if negb r then call (CtxSend MSG_NOT_RECORDING) (ctx_send_ok env)
  else
    if administrator (author ctx) then
      stop_recording false false ;;
      call (CtxSend MSG_FORCE_STOPPED) (ctx_send_ok env)
    else call (CtxSend MSG_ADMIN_ONLY) (ctx_send_ok env).

(** [cog_unload]: schedules [self.stop_recording()] when recording. *)
Definition cog_unload : M unit :=
  r <- gets recording ;;
  if r then did (CreateTask (StopRecording false false)) else ret tt.

(** The coroutine a scheduled task runs: one turn for the record loop. *)
Definition run_task (t : Task) : M unit :=
  match t with
  | RecordLoop => record_loop_iteration ;; ret tt
  | StopRecording a e => stop_recording a e
  end.

End Coroutines.

(** The environment [env] with [stream.read] returning [d]. *)
Definition reading (env : Env) (d : option Frame) : Env :=
  {| connect_ok := connect_ok env; pyaudio_ok := pyaudio_ok env;
     open_ok := open_ok env; announce_ok := announce_ok env;
     read_data := d; now := now env; flush_ok := flush_ok env;
     reason_send_ok := reason_send_ok env;
     saved_send_ok := saved_send_ok env;
     error_send_ok := error_send_ok env; ctx_send_ok := ctx_send_ok env |}.

(** [record_loop] left alone for as many turns as there are environments:
    it goes on while a turn says so. *)
Fixpoint record_loop (cfg : Config) (envs : list Env) : M unit :=
  match envs with
  | [] => ret tt
  | env :: rest =>
      go <- record_loop_iteration cfg env ;;
      if go then record_loop cfg rest else ret tt
  end.

(** [on_voice_state_update]: the channel left is checked, then the
    channel joined.  Each check has its own environment. *)
Definition on_voice_state_update (cfg : Config) (env_before env_after : Env)
    (before after : option VoiceState) : M unit :=
  match before with
  | Some b =>
      match vs_channel b with
      | Some c => check_channel cfg env_before c
      | None => ret tt
      end
  | None => ret tt
  end ;;
  match after with
  | Some a =>
      match vs_channel a with
      | Some c => check_channel cfg env_after c
      | None => ret tt
      end
  | None => ret tt
  end.

(** The inner [for vc in guild.voice_channels] of [on_ready]. *)
Fixpoint check_channels (cfg : Config) (vcs : list (Env * Channel)) : M unit :=
  match vcs with
  | [] => ret tt
  | (env, vc) :: rest => check_channel cfg env vc ;; check_channels cfg rest
  end.

(** The outer [for guild in self.guilds] of [on_ready]. *)
Fixpoint check_guilds (cfg : Config) (guilds : list (list (Env * Channel))) : M unit :=
  match guilds with
  | [] => ret tt
  | g :: rest => check_channels cfg g ;; check_guilds cfg rest
  end.

(** [on_ready]: every voice channel of every guild is checked once. *)
Definition on_ready (cfg : Config) (guilds : list (list (Env * Channel))) : M unit :=
  did (Log Info "Bot is ready! Logged in as ") ;;
  check_guilds cfg guilds.

(** ** Runs *)

(** What can reach the bot: a membership change of one channel, as it
    reaches [check_channel]; the two gateway events; a start intent handed
    to [start_recording]; a turn of a scheduled task; the two commands and
    the unload hook. *)
Inductive Event :=
| MembershipChange (env : Env) (c : Channel)
| Ready (guilds : list (list (Env * Channel)))
| VoiceStateUpdate (env_before env_after : Env) (before after : option VoiceState)
| StartIntent (env : Env) (c : Channel)
| TaskTurn (env : Env) (t : Task)
| StopCommand (env : Env) (ctx : Context)
| ForceStopCommand (env : Env) (ctx : Context)
| Unload.

Definition handle (cfg : Config) (e : Event) : M unit :=
  match e with
  | MembershipChange env c => check_channel cfg env c
  | Ready guilds => on_ready cfg guilds
  | VoiceStateUpdate eb ea before after =>
      on_voice_state_update cfg eb ea before after
  | StartIntent env c => start_recording cfg env c
  | TaskTurn env t => run_task cfg env t
  | StopCommand env ctx => stop cfg env ctx
  | ForceStopCommand env ctx => force_stop cfg env ctx
  | Unload => cog_unload
  end.

(** The events are handled one after the other; an exception that leaves
    a handler ends that handler only, the bot stays as it was left. *)
Fixpoint run (cfg : Config) (es : list Event) (s : Bot) : Bot * Trace :=
  match es with
  | [] => (s, [])
  | e :: rest =>
      let '(_, s1, t1) := handle cfg e s in
      let '(s2, t2) := run cfg rest s1 in
      (s2, t1 ++ t2)
  end.

(** ** Reading a trace *)

Definition is_write (e : Effect) : bool :=
  match e with
  | Did (WriteWav _ _ _ _ _ _) => true
  | _ => false
  end.

(** The number of files written. *)
Definition files_written (t : Trace) : nat := List.length (filter is_write t).

(** The audio payloads written, in order. *)
Fixpoint payloads (t : Trace) : list (list byte) :=
  match t with
  | [] => []
  | Did (WriteWav _ _ _ _ _ p) :: rest => p :: payloads rest
  | _ :: rest => payloads rest
  end.

(** What a session holds in the outside world. *)
Inductive Resource := VoiceConnection | AudioDevice | CaptureStream.

(** The change an effect makes to the number of open resources of kind
    [k]. *)
Definition delta (k : Resource) (e : Effect) : Z :=
  match k, e with
  | VoiceConnection, Did (Connect _) => 1
  | VoiceConnection, Did (Disconnect _) => -1
  | AudioDevice, Did PyAudioNew => 1
  | AudioDevice, Did AudioTerminate => -1
  | CaptureStream, Did (StreamOpen _ _ _ _) => 1
  | CaptureStream, Did StreamClose => -1
  | _, _ => 0
  end%Z.

(** The number of open resources of kind [k] after [t], from [b] before. *)
Definition live_after (k : Resource) (b : Z) (t : Trace) : Z :=
  fold_left (fun n e => (n + delta k e)%Z) t b.

(** At no point of [t], starting with [b] open resources of kind [k], are
    there more than one, or fewer than none. *)
Fixpoint at_most_one (k : Resource) (b : Z) (t : Trace) : bool :=
  (0 <=? b)%Z && (b <=? 1)%Z &&
  match t with
  | [] => true
  | e :: rest => at_most_one k (b + delta k e) rest
  end.

(** The release calls [cleanup_recording] makes for the handles of [s]. *)
Definition releases (s : Bot) : Trace :=
  match stream s with Some _ => [Did StreamStop; Did StreamClose] | None => [] end
  ++ match audio s with Some _ => [Did AudioTerminate] | None => [] end
  ++ match voice_client s with Some v => [Did (Disconnect v)] | None => [] end.

(** ** Sessions *)

(** A session recording channel [c] with [fs] buffered. *)
Definition session_of (c : Channel) (fs : list Frame) : Bot :=
  {| recording := true; voice_client := Some (VoiceClientOf c);
     current_recording_channel := Some c; frames := fs;
     audio := Some PyAudioHandle; stream := Some StreamHandle |}.

(** Between two events the bot is idle, as [__init__] left it, or it holds
    one whole session: never a part of one. *)
Inductive consistent : Bot -> Prop :=
| consistent_idle : consistent init_bot
| consistent_active (c : Channel) (fs : list Frame) : consistent (session_of c fs).

(** The number of sessions a bot holds. *)
Definition sessions (s : Bot) : Z := if recording s then 1%Z else 0%Z.

(** Whether a stop on [s] gets a file written: there are frames, the
    audio handle is there and the write goes through. *)
Definition flushes (env : Env) (s : Bot) : bool :=
  match frames s, audio s with
  | _ :: _, Some _ => flush_ok env
  | _, _ => false
  end.

(** The messages sent or tried on voice channels, in order. *)
Fixpoint sent (t : Trace) : list (Channel * string) :=
  match t with
  | [] => []
  | Did (ChannelSend c text) :: rest => (c, text) :: sent rest
  | Threw (ChannelSend c text) :: rest => (c, text) :: sent rest
  | _ :: rest => sent rest
  end.

(** The call [c] as the trace shows it. *)
Definition shown (c : Call) (ok : bool) : Effect :=
  if ok then Did c else Threw c.

Definition is_connect (e : Effect) : bool :=
  match e with Did (Connect _) => true | _ => false end.

Definition is_disconnect (e : Effect) : bool :=
  match e with Did (Disconnect _) => true | _ => false end.

(** The sessions a trace opens and the sessions it closes. *)
Definition sessions_opened (t : Trace) : nat := List.length (filter is_connect t).
Definition sessions_closed (t : Trace) : nat := List.length (filter is_disconnect t).

(** The requester of a command sits in voice channel [c]. *)
Definition present_in (ctx : Context) (c : Channel) : Prop :=
  exists v c', voice (author ctx) = Some v
               /\ vs_channel v = Some c'
               /\ chan_id c' = chan_id c.

(** The three outside calls of a start all go through. *)
Definition start_ok (env : Env) : bool :=
  connect_ok env && pyaudio_ok env && open_ok env.

(** The loop turns that read the frames [fs], one each. *)
Definition turns (env : Env) (fs : list Frame) : list Event :=
  map (fun f => TaskTurn (reading env (Some f)) RecordLoop) fs.

(** ** Sample values *)

Definition sample_cfg : Config :=
  {| FORMAT := "int16"; CHANNELS := 2; RATE := 44100; CHUNK := 1024;
     RECORDINGS_DIR := "recordings" |}.

Definition all_ok : Env :=
  {| connect_ok := true; pyaudio_ok := true; open_ok := true;
     announce_ok := true; read_data := Some [x01; x02];
     now := "20240101_120000"; flush_ok := true; reason_send_ok := true;
     saved_send_ok := true; error_send_ok := true; ctx_send_ok := true |}.

(** Nothing outside works: every call raises. *)
Definition all_fail : Env :=
  {| connect_ok := false; pyaudio_ok := false; open_ok := false;
     announce_ok := false; read_data := None;
     now := "20240101_120000"; flush_ok := false; reason_send_ok := false;
     saved_send_ok := false; error_send_ok := false; ctx_send_ok := false |}.

Definition human : Member := {| bot := false |}.
Definition robot : Member := {| bot := true |}.

(** Channel 7 with [n] people and the bot itself. *)
Definition lounge (n : nat) : Channel :=
  {| chan_id := 7; members := robot :: repeat human n |}.

(** Another channel, with three people. *)
Definition lobby : Channel :=
  {| chan_id := 8; members := [human; human; human] |}.

Definition frame_a : Frame := [x01; x02].
Definition frame_b : Frame := [x03].

Definition outsider : Context :=
  {| author := {| voice := Some {| vs_channel := Some lobby |};
                  administrator := false |} |}.

(** What a handler must keep: the bot is consistent afterwards and, for
    each kind of resource, the trace never holds two of them and those
    open at the end are the sessions of the bot. *)
Definition keeps {A} (s : Bot) (x : result A * Bot * Trace) : Prop :=
  consistent (final x)
  /\ forall k,
       at_most_one k (sessions s) (trace x) = true
       /\ live_after k (sessions s) (trace x) = sessions (final x).

(** ** Tactics *)

Ltac unfold_co :=
  unfold stop, force_stop, cog_unload, run_task, record_loop_iteration,
    check_channel, stop_recording, write_wav, channel_send, start_recording,
    announce_recording_start, cleanup_recording, call, did, emit, modify,
    gets, raise, try_finally, try_except, bind, ret, outcome, final, trace
    in *.

Ltac run_co := unfold_co; cbn [fst snd app recording voice_client
    current_recording_channel frames audio stream set_recording
    set_voice_client set_current_recording_channel set_frames set_audio
    set_stream negb init_bot session_of andb orb connect_ok pyaudio_ok
    open_ok announce_ok read_data now flush_ok reason_send_ok saved_send_ok
    error_send_ok ctx_send_ok shown].

Ltac split_env env :=
  destruct env as [connect_ok0 pyaudio_ok0 open_ok0 announce_ok0 read_data0
                   now0 flush_ok0 reason_send_ok0 saved_send_ok0
                   error_send_ok0 ctx_send_ok0].

Ltac keeps_done :=
  unfold keeps; run_co;
  split; [constructor | intros []; split; reflexivity].

(** ** More readings of a trace *)

(** The tasks a trace schedules, in order. *)
Fixpoint tasks_created (t : Trace) : list Task :=
  match t with
  | [] => []
  | Did (CreateTask k) :: rest => k :: tasks_created rest
  | _ :: rest => tasks_created rest
  end.

(** The directory and the name of the files written, in order. *)
Fixpoint files_named (t : Trace) : list (string * string) :=
  match t with
  | [] => []
  | Did (WriteWav dir file _ _ _ _) :: rest => (dir, file) :: files_named rest
  | _ :: rest => files_named rest
  end.




(** The name [stop_recording] gives the recording made at [now env]. *)
Definition recording_name (env : Env) : string :=
  ("nouncil_recording_" ++ now env)%string.

(** The payload a session that buffered [fs] leaves when it is stopped
    under [env]. *)
Definition payload_of (env : Env) (fs : list Frame) : list (list byte) :=
  match fs with
  | [] => []
  | _ :: _ => if flush_ok env then [join fs] else []
  end.

(** The voice state of a member sitting in channel [c]. *)
Definition sitting_in (c : Channel) : option VoiceState :=
  Some {| vs_channel := Some c |}.

(** ** More sample values *)



(** The connection goes through, the audio device cannot be opened. *)
Definition no_device : Env :=
  {| connect_ok := true; pyaudio_ok := true; open_ok := false;
     announce_ok := true; read_data := None;
     now := "20240101_120000"; flush_ok := true; reason_send_ok := true;
     saved_send_ok := true; error_send_ok := true; ctx_send_ok := true |}.


(** * Every outside call may raise

    The coroutines above take [wave.open] and the four release calls of
    [cleanup_recording] to return.  Module [Full] has the coroutines with
    these five calls fallible as well: their outcome is read from a second
    record.  The file is opened before the frames are written, and
    [cleanup_recording] makes its six assignments only after the releases,
    so a release that raises leaves every attribute as it was. *)

(** The outcome of [wave.open] and of the release calls. *)
Record Outside := {
  wave_open_ok : bool;
  stop_stream_ok : bool;
  stream_close_ok : bool;
  terminate_ok : bool;
  disconnect_ok : bool
}.

(** The five calls return. *)
Definition all_return : Outside :=
  {| wave_open_ok := true; stop_stream_ok := true; stream_close_ok := true;
     terminate_ok := true; disconnect_ok := true |}.

(** The outcomes of the outside calls of one coroutine run. *)
Definition World : Type := (Env * Outside)%type.

Module Full.

Section Coroutines.

Variable cfg : Config.
Variable env : Env.
Variable out : Outside.

(** [cleanup_recording]: the guarded releases, each of which may raise,
    then the six assignments. *)
Definition cleanup_recording : M unit :=
  st <- gets stream ;;
  match st with
  | Some _ =>
      call StreamStop (stop_stream_ok out) ;;
      call StreamClose (stream_close_ok out)
  | None => ret tt
  end ;;
  au <- gets audio ;;
  match au with
  | Some _ => call AudioTerminate (terminate_ok out)
  | None => ret tt
  end ;;
  vc <- gets voice_client ;;
  match vc with
  | Some v => call (Disconnect v) (disconnect_ok out)
  | None => ret tt
  end ;;
  modify (set_stream None) ;;
  modify (set_audio None) ;;
  modify (set_voice_client None) ;;
  modify (set_current_recording_channel None) ;;
  modify (set_frames []) ;;
  modify (set_recording false).

(** [start_recording] up to its first [await]: the guard on the flag.
    [true] when the coroutine goes on to connect. *)
Definition start_recording_guard : M bool :=
  r <- gets recording ;;
  ret (negb r).

(** [start_recording] from the awaited [channel.connect()] on: the flag is
    not looked at again. *)
Definition start_recording_resume (channel : Channel) : M unit :=
  try_except
    (call (Connect channel) (connect_ok env) ;;
     modify (set_voice_client (Some (VoiceClientOf channel))) ;;
     modify (set_current_recording_channel (Some channel)) ;;
     call PyAudioNew (pyaudio_ok env) ;;
     modify (set_audio (Some PyAudioHandle)) ;;
     call (StreamOpen (FORMAT cfg) (CHANNELS cfg) (RATE cfg) (CHUNK cfg))
          (open_ok env) ;;
     modify (set_stream (Some StreamHandle)) ;;
     modify (set_recording true) ;;
     modify (set_frames []) ;;
     announce_recording_start env channel ;;
     did (CreateTask RecordLoop) ;;
     did (Log Info "Started recording in channel: "))
    (did (Log Error "Error starting recording: ") ;;
     cleanup_recording).

(** [start_recording] *)
Definition start_recording (channel : Channel) : M unit :=
  go <- start_recording_guard ;;
  if go then start_recording_resume channel else ret tt.

(** The [with wave.open(...)] block: the file is created by [wave.open];
    the sample width is asked of [self.audio], which raises without it;
    then the frames are written, joined. *)
Definition write_wav (filename : string) : M unit :=
  call (WaveOpen (RECORDINGS_DIR cfg) (filename ++ ".wav")%string)
       (wave_open_ok out) ;;
  au <- gets audio ;;
  match au with
  | Some _ =>
      fs <- gets frames ;;
      call (WriteWav (RECORDINGS_DIR cfg) (filename ++ ".wav")%string
                     (CHANNELS cfg) (FORMAT cfg) (RATE cfg) (List.concat fs))
           (flush_ok env)
  | None => raise
  end.

(** The [try] and [except] of [stop_recording]. *)
Definition save_recording (auto_stopped error : bool)
    (channel : option Channel) : M unit :=
  try_except
    (fs <- gets frames ;;
     match fs with
     | [] => ret tt
     | _ :: _ =>
         let filename := ("nouncil_recording_" ++ now env)%string in
         write_wav filename ;;
         did (Log Info "Saved recording to ") ;;
         channel_send channel (stop_notice auto_stopped error)
                      (reason_send_ok env) ;;
         channel_send channel ("Recording saved as: " ++ filename)%string
                      (saved_send_ok env)
     end)
    (did (Log Error "Error saving recording: ") ;;
     match channel with
     | Some c => call (ChannelSend c MSG_SAVE_FAILED) (error_send_ok env)
     | None => ret tt
     end).

(** [stop_recording] *)
Definition stop_recording (auto_stopped error : bool) : M unit :=
  r <- gets recording ;;
  if negb r then ret tt
  else
    modify (set_recording false) ;;
    channel <- gets current_recording_channel ;;
    try_finally (save_recording auto_stopped error channel)
                cleanup_recording.

(** [check_channel] *)
Definition check_channel (channel : Channel) : M unit :=
  let n := member_count channel in
  r <- gets recording ;;
  cur <- gets current_recording_channel ;;
  if (3 <=? n)%nat && negb r then start_recording channel
  else if (n <? 3)%nat && r && py_eq cur (Some channel)
       then stop_recording true false
       else ret tt.

(** One turn of the loop of [record_loop], inside its [try]. *)
Definition record_loop_iteration : M bool :=
  try_except
    (r <- gets recording ;;
     if r then
       st <- gets stream ;;
       match st with
       | None => raise
       | Some _ =>
           match read_data env with
           | Some data =>
               did (StreamRead (CHUNK cfg)) ;;
               fs <- gets frames ;;
               modify (set_frames (fs ++ [data])) ;;
               ret true
           | None => emit (Threw (StreamRead (CHUNK cfg))) ;; raise
           end
       end
     else ret false)
    (did (Log Error "Error in recording loop: ") ;;
     stop_recording false true ;;
     ret false).

(** The [!stop] command. *)
Definition stop (ctx : Context) : M unit :=
  r <- gets recording ;;
  if negb r then call (CtxSend MSG_NOT_RECORDING) (ctx_send_ok env)
  else
    cur <- gets current_recording_channel ;;
    if author_in_channel ctx cur then
      stop_recording false false ;;
      call (CtxSend MSG_STOPPED_BY_COMMAND) (ctx_send_ok env)
    else call (CtxSend MSG_NOT_IN_CHANNEL) (ctx_send_ok env).

(** The [!forcestop] command. *)
Definition force_stop (ctx : Context) : M unit :=
  r <- gets recording ;;
  if negb r then call (CtxSend MSG_NOT_RECORDING) (ctx_send_ok env)
  else
    if administrator (author ctx) then
      stop_recording false false ;;
      call (CtxSend MSG_FORCE_STOPPED) (ctx_send_ok env)
    else call (CtxSend MSG_ADMIN_ONLY) (ctx_send_ok env).

(** The coroutine a scheduled task runs: one turn for the record loop. *)
Definition run_task (t : Task) : M unit :=
  match t with
  | RecordLoop => record_loop_iteration ;; ret tt
  | StopRecording a e => stop_recording a e
  end.

End Coroutines.

(** [record_loop] left alone for as many turns as there are worlds. *)
Fixpoint record_loop (cfg : Config) (ws : list World) : M unit :=
  match ws with
  | [] => ret tt
  | w :: rest =>
      go <- record_loop_iteration cfg (fst w) (snd w) ;;
      if go then record_loop cfg rest else ret tt
  end.

(** The check [on_voice_state_update] makes of one side of the change. *)
Definition check_side (cfg : Config) (w : World) (v : option VoiceState)
    : M unit :=
  match v with
  | Some b =>
      match vs_channel b with
      | Some c => check_channel cfg (fst w) (snd w) c
      | None => ret tt
      end
  | None => ret tt
  end.

(** [on_voice_state_update] *)
Definition on_voice_state_update (cfg : Config) (w_before w_after : World)
    (before after : option VoiceState) : M unit :=
  check_side cfg w_before before ;;
  check_side cfg w_after after.

(** The inner loop of [on_ready]. *)
Fixpoint check_channels (cfg : Config) (vcs : list (World * Channel))
    : M unit :=
  match vcs with
  | [] => ret tt
  | (w, vc) :: rest =>
      check_channel cfg (fst w) (snd w) vc ;; check_channels cfg rest
  end.

(** The outer loop of [on_ready]. *)
Fixpoint check_guilds (cfg : Config) (guilds : list (list (World * Channel)))
    : M unit :=
  match guilds with
  | [] => ret tt
  | g :: rest => check_channels cfg g ;; check_guilds cfg rest
  end.

(** [on_ready] *)
Definition on_ready (cfg : Config) (guilds : list (list (World * Channel)))
    : M unit :=
  did (Log Info "Bot is ready! Logged in as ") ;;
  check_guilds cfg guilds.

(** What can reach the bot, each with the outcomes of its outside calls. *)
Inductive Event :=
| MembershipChange (w : World) (c : Channel)
| Ready (guilds : list (list (World * Channel)))
| VoiceStateUpdate (w_before w_after : World) (before after : option VoiceState)
| StartIntent (w : World) (c : Channel)
| TaskTurn (w : World) (t : Task)
| StopCommand (w : World) (ctx : Context)
| ForceStopCommand (w : World) (ctx : Context)
| Unload.

Definition handle (cfg : Config) (e : Event) : M unit :=
  match e with
  | MembershipChange w c => check_channel cfg (fst w) (snd w) c
  | Ready guilds => on_ready cfg guilds
  | VoiceStateUpdate wb wa before after =>
      on_voice_state_update cfg wb wa before after
  | StartIntent w c => start_recording cfg (fst w) (snd w) c
  | TaskTurn w t => run_task cfg (fst w) (snd w) t
  | StopCommand w ctx => stop cfg (fst w) (snd w) ctx
  | ForceStopCommand w ctx => force_stop cfg (fst w) (snd w) ctx
  | Unload => cog_unload
  end.

(** The events handled one after the other, each handler to its end. *)
Fixpoint run (cfg : Config) (es : list Event) (s : Bot) : Bot * Trace :=
  match es with
  | [] => (s, [])
  | e :: rest =>
      let '(_, s1, t1) := handle cfg e s in
      let '(s2, t2) := run cfg rest s1 in
      (s2, t1 ++ t2)
  end.

(** Two starts whose guards are both passed before either connects: the
    second is handled while the first waits in [await channel.connect()],
    and its own connection comes back after the first start has run to
    its end. *)
Definition two_starts_interleaved (cfg : Config) (w1 w2 : World)
    (c1 c2 : Channel) : M unit :=
  go1 <- start_recording_guard ;;
  go2 <- start_recording_guard ;;
  (if go1 then start_recording_resume cfg (fst w1) (snd w1) c1 else ret tt) ;;
  (if go2 then start_recording_resume cfg (fst w2) (snd w2) c2 else ret tt).

End Full.

(** ** The shutdown of the process *)

(** [main.py]: what the repository's code does when the process is shut
    down: the [finally] of [main] and the [except KeyboardInterrupt] of
    the script each log a line.  Neither touches the bot, and nothing
    calls [cog_unload]. *)
Definition main_shutdown : M unit :=
  did (Log Info "Bot shutting down...") ;;
  did (Log Info "Bot stopped by user").

(** ** The files on disk *)

(** A file is whole, with its audio payload, or was created and not
    written to its end. *)
Inductive FileState :=
| Complete (payload : list byte)
| Broken.

(** A path: the directory and the name. *)
Definition Path : Type := (string * string)%type.

Definition path_eqb (p q : Path) : bool :=
  String.eqb (fst p) (fst q) && String.eqb (snd p) (snd q).

Definition Disk : Type := list (Path * FileState).

(** The file at [p] becomes [f]; a file already there is replaced. *)
Fixpoint put (p : Path) (f : FileState) (d : Disk) : Disk :=
  match d with
  | [] => [(p, f)]
  | (q, g) :: rest =>
      if path_eqb q p then (q, f) :: rest else (q, g) :: put p f rest
  end.

(** The disk after the calls of [t]: [wave.open] creates or truncates the
    file, the write that returns completes it. *)
Fixpoint disk_after (t : Trace) (d : Disk) : Disk :=
  match t with
  | [] => d
  | Did (WaveOpen dir file) :: rest => disk_after rest (put (dir, file) Broken d)
  | Did (WriteWav dir file _ _ _ payload) :: rest =>
      disk_after rest (put (dir, file) (Complete payload) d)
  | _ :: rest => disk_after rest d
  end.

(** The path of the recording stopped at [now env]. *)
Definition recording_path (cfg : Config) (env : Env) : Path :=
  (RECORDINGS_DIR cfg,
   (("nouncil_recording_" ++ now env) ++ ".wav")%string).

(** ** More readings of a trace, and of a bot *)

Definition is_wave_open (e : Effect) : bool :=
  match e with
  | Did (WaveOpen _ _) | Threw (WaveOpen _ _) => true
  | _ => false
  end.

(** The trace without the calls of [wave.open]. *)
Definition without_wave_open (t : Trace) : Trace :=
  filter (fun e => negb (is_wave_open e)) t.

(** The messages that reached a voice channel, in order. *)
Fixpoint told (t : Trace) : list (Channel * string) :=
  match t with
  | [] => []
  | Did (ChannelSend c text) :: rest => (c, text) :: told rest
  | _ :: rest => told rest
  end.

(** The release calls [cleanup_recording] makes on [s] all return. *)
Definition releases_return (out : Outside) (s : Bot) : bool :=
  match stream s with
  | Some _ => stop_stream_ok out && stream_close_ok out
  | None => true
  end
  && match audio s with Some _ => terminate_ok out | None => true end
  && match voice_client s with Some _ => disconnect_ok out | None => true end.

(** The save block of a stop goes through: nothing to save, or the file
    is opened and written and both notices are sent. *)
Definition save_goes_through (env : Env) (out : Outside) (fs : list Frame)
    : bool :=
  match fs with
  | [] => true
  | _ :: _ =>
      wave_open_ok out && flush_ok env && reason_send_ok env
      && saved_send_ok env
  end.

(** What [check_channel] does with a membership change of [c] on the
    bot [s], read off the call it makes. *)
Inductive Intent :=
| StartOf (c : Channel)
| StopQuorumLost (c : Channel)
| NoIntent.

Definition issues (cfg : Config) (w : World) (c : Channel) (s : Bot)
    (i : Intent) : Prop :=
  match i with
  | StartOf c' =>
      c' = c /\ recording s = false
      /\ Full.check_channel cfg (fst w) (snd w) c s
         = Full.start_recording cfg (fst w) (snd w) c s
  | StopQuorumLost c' =>
      c' = c /\ recording s = true
      /\ Full.check_channel cfg (fst w) (snd w) c s
         = Full.stop_recording cfg (fst w) (snd w) true false s
  | NoIntent =>
      Full.check_channel cfg (fst w) (snd w) c s = (Returned tt, s, [])
  end.

(** The membership changes of the run [es] from [s] issue the intents
    [its], one each, in order. *)
Fixpoint run_issues (cfg : Config) (es : list Full.Event) (s : Bot)
    (its : list Intent) : Prop :=
  match es with
  | [] => its = []
  | e :: rest =>
      match e with
      | Full.MembershipChange w c =>
          match its with
          | i :: its' =>
              issues cfg w c s i
              /\ run_issues cfg rest (final (Full.handle cfg e s)) its'
          | [] => False
          end
      | _ => run_issues cfg rest (final (Full.handle cfg e s)) its
      end
  end.

(** The loop turns that read the frames [fs], one each. *)
Definition reads (w : World) (fs : list Frame) : list Full.Event :=
  map (fun f => Full.TaskTurn (reading (fst w) (Some f), snd w) RecordLoop) fs.

(** What the stop of a session that buffered [fs] leaves at its path. *)
Definition saved (w : World) (fs : list Frame) : option FileState :=
  match fs with
  | [] => None
  | _ :: _ =>
      if wave_open_ok (snd w)
      then Some (if flush_ok (fst w) then Complete (List.concat fs) else Broken)
      else None
  end.

(** The payload of the file, when it is there and whole. *)
Definition completed (o : option FileState) : list (list byte) :=
  match o with
  | Some (Complete p) => [p]
  | _ => []
  end.

(** The disk [d] with the file [o], if any, put at [p]. *)
Definition store (p : Path) (o : option FileState) (d : Disk) : Disk :=
  match o with
  | Some f => put p f d
  | None => d
  end.

(** The flag is on only on a bot that holds a whole session. *)
Definition whole (s : Bot) : Prop :=
  recording s = true -> exists c fs, s = session_of c fs.

(** The coroutine [m] leaves such a bot such a bot. *)
Definition keeps_whole {A} (m : M A) : Prop :=
  forall s, whole s -> whole (final (m s)).

(** ** Sample values for the fallible calls *)

Definition ok : World := (all_ok, all_return).

(** Everything returns but [stream.stop_stream()]. *)
Definition stuck_stream : Outside :=
  {| wave_open_ok := true; stop_stream_ok := false; stream_close_ok := true;
     terminate_ok := true; disconnect_ok := true |}.

(** The write of the frames raises. *)
Definition no_write : Env :=
  {| connect_ok := true; pyaudio_ok := true; open_ok := true;
     announce_ok := true; read_data := None;
     now := "20240101_120000"; flush_ok := false; reason_send_ok := true;
     saved_send_ok := true; error_send_ok := true; ctx_send_ok := true |}.

(** A later second. *)
Definition later_ok : World :=
  ({| connect_ok := true; pyaudio_ok := true; open_ok := true;
      announce_ok := true; read_data := None;
      now := "20240101_120500"; flush_ok := true; reason_send_ok := true;
      saved_send_ok := true; error_send_ok := true; ctx_send_ok := true |},
   all_return).

Definition frame_c : Frame := [x04; x05; x06; x07].

(** The six membership changes of channel 7 with 1, 2, 3, 2, 4 and 1
    people and nothing in between, every outside call returning. *)
Definition six_changes : list Full.Event :=
  map (fun n => Full.MembershipChange ok (lounge n)) [1; 2; 3; 2; 4; 1]%nat.

Ltac unfold_full :=
  unfold Full.stop, Full.force_stop, Full.run_task,
    Full.record_loop_iteration, Full.check_channel, Full.stop_recording,
    Full.save_recording, Full.write_wav, Full.start_recording,
    Full.start_recording_guard, Full.start_recording_resume,
    Full.cleanup_recording, Full.two_starts_interleaved, main_shutdown in *.

Ltac run_full := unfold_full; run_co;
  cbn [wave_open_ok stop_stream_ok stream_close_ok terminate_ok
       disconnect_ok fst snd].

Ltac split_out out :=
  destruct out as [wave_open_ok0 stop_stream_ok0 stream_close_ok0
                   terminate_ok0 disconnect_ok0].

(** ** The monad *)

Lemma app_nil_trace (t : Trace) : t ++ [] = t.
Proof. apply app_nil_r. Qed.

Lemma bind_gets {A B} (f : Bot -> A) (k : A -> M B) (s : Bot) :
  bind (gets f) k s = k (f s) s.
Proof.
  unfold bind, gets. destruct (k (f s) s) as [[r s2] t2]. reflexivity.
Qed.

Lemma at_most_one_app (k : Resource) (t1 t2 : Trace) (b : Z) :
  at_most_one k b (t1 ++ t2) =
  at_most_one k b t1 && at_most_one k (live_after k b t1) t2.
Proof.
  revert b. induction t1 as [|e t1 IH]; intros b;
    cbn [app at_most_one live_after fold_left].
  - destruct t2; cbn [at_most_one];
      destruct (0 <=? b)%Z, (b <=? 1)%Z; reflexivity.
  - rewrite IH. fold (live_after k (b + delta k e) t1).
    destruct (0 <=? b)%Z, (b <=? 1)%Z; reflexivity.
Qed.

Lemma live_after_app (k : Resource) (t1 t2 : Trace) (b : Z) :
  live_after k b (t1 ++ t2) = live_after k (live_after k b t1) t2.
Proof. unfold live_after. apply fold_left_app. Qed.

Lemma keeps_ret {A} (a : A) (s : Bot) : consistent s -> keeps s (ret a s).
Proof.
  intros H. unfold keeps, ret, final, trace; cbn.
  split; [exact H|]. intros k. destruct H; split; reflexivity.
Qed.

Lemma keeps_bind {A B} (m : M A) (f : A -> M B) (s : Bot) :
  keeps s (m s) ->
  (forall a s1, consistent s1 -> keeps s1 (f a s1)) ->
  keeps s (bind m f s).
Proof.
  unfold keeps, bind, final, trace.
  destruct (m s) as [[[a|] s1] t1]; cbn [fst snd]; intros (Hc & Hk) Hf.
  - specialize (Hf a s1 Hc). destruct (f a s1) as [[r s2] t2].
    cbn [fst snd] in *. destruct Hf as (Hc2 & Hk2).
    split; [exact Hc2|]. intros k.
    destruct (Hk k) as (Ha & Hl). destruct (Hk2 k) as (Ha2 & Hl2).
    rewrite at_most_one_app, live_after_app, Ha, Hl. auto.
  - auto.
Qed.

(** ** Every handler keeps the session whole *)

Lemma keeps_stop_recording cfg env a e s :
  consistent s -> keeps s (stop_recording cfg env a e s).
Proof.
  intros [|c fs]; split_env env.
  - keeps_done.
  - destruct fs as [|f fs].
    + keeps_done.
    + destruct flush_ok0, reason_send_ok0, saved_send_ok0, error_send_ok0;
        keeps_done.
Qed.

Lemma keeps_start_recording cfg env c s :
  consistent s -> keeps s (start_recording cfg env c s).
Proof.
  intros [|c0 fs]; split_env env.
  - destruct connect_ok0, pyaudio_ok0, open_ok0, announce_ok0; keeps_done.
  - keeps_done.
Qed.

Lemma keeps_check_channel cfg env c s :
  consistent s -> keeps s (check_channel cfg env c s).
Proof.
  intros H. unfold check_channel. rewrite !bind_gets.
  destruct ((3 <=? member_count c)%nat && negb (recording s)).
  - apply keeps_start_recording, H.
  - destruct ((member_count c <? 3)%nat && recording s
              && py_eq (current_recording_channel s) (Some c)).
    + apply keeps_stop_recording, H.
    + apply (keeps_ret tt H).
Qed.

Lemma keeps_record_loop_iteration cfg env s :
  consistent s -> keeps s (record_loop_iteration cfg env s).
Proof.
  intros [|c fs]; split_env env.
  - keeps_done.
  - destruct read_data0 as [data|].
    + keeps_done.
    + destruct fs as [|f fs].
      * keeps_done.
      * destruct flush_ok0, reason_send_ok0, saved_send_ok0, error_send_ok0;
          keeps_done.
Qed.

Lemma keeps_call (c : Call) (ok : bool) (s : Bot) :
  (forall k, delta k (Did c) = 0%Z) -> consistent s -> keeps s (call c ok s).
Proof.
  intros Hd H. unfold keeps.
  destruct ok; run_co; (split; [exact H|]); intros k;
    cbn [at_most_one live_after fold_left];
    try rewrite Hd; try (destruct k; cbn [delta]); rewrite ?Z.add_0_r;
    destruct H; split; reflexivity.
Qed.

Lemma keeps_stop cfg env ctx s :
  consistent s -> keeps s (stop cfg env ctx s).
Proof.
  intros H. unfold stop. rewrite bind_gets.
  destruct (recording s) eqn:R; cbn [negb].
  - rewrite bind_gets.
    destruct (author_in_channel ctx (current_recording_channel s)).
    + apply keeps_bind.
      * apply keeps_stop_recording, H.
      * intros _ s1 H1. apply keeps_call; [intros []; reflexivity | exact H1].
    + apply keeps_call; [intros []; reflexivity | exact H].
  - apply keeps_call; [intros []; reflexivity | exact H].
Qed.

Lemma keeps_force_stop cfg env ctx s :
  consistent s -> keeps s (force_stop cfg env ctx s).
Proof.
  intros H. unfold force_stop. rewrite bind_gets.
  destruct (recording s) eqn:R; cbn [negb].
  - destruct (administrator (author ctx)).
    + apply keeps_bind.
      * apply keeps_stop_recording, H.
      * intros _ s1 H1. apply keeps_call; [intros []; reflexivity | exact H1].
    + apply keeps_call; [intros []; reflexivity | exact H].
  - apply keeps_call; [intros []; reflexivity | exact H].
Qed.

Lemma keeps_cog_unload s : consistent s -> keeps s (cog_unload s).
Proof. intros [|c fs]; keeps_done. Qed.

Lemma keeps_run_task cfg env t s :
  consistent s -> keeps s (run_task cfg env t s).
Proof.
  intros H. destruct t as [|a e]; cbn [run_task].
  - apply keeps_bind.
    + apply keeps_record_loop_iteration, H.
    + intros b s1 H1. apply (keeps_ret tt H1).
  - apply keeps_stop_recording, H.
Qed.

Lemma keeps_check_side cfg env (v : option VoiceState) s :
  consistent s ->
  keeps s (match v with
           | Some b =>
               match vs_channel b with
               | Some c => check_channel cfg env c
               | None => ret tt
               end
           | None => ret tt
           end s).
Proof.
  intros H. destruct v as [[[c|]]|]; cbn [vs_channel].
  - apply keeps_check_channel, H.
  - apply (keeps_ret tt H).
  - apply (keeps_ret tt H).
Qed.

Lemma keeps_on_voice_state_update cfg eb ea before after s :
  consistent s -> keeps s (on_voice_state_update cfg eb ea before after s).
Proof.
  intros H. unfold on_voice_state_update. apply keeps_bind.
  - apply keeps_check_side, H.
  - intros _ s1 H1. apply keeps_check_side, H1.
Qed.

Lemma keeps_check_channels cfg vcs s :
  consistent s -> keeps s (check_channels cfg vcs s).
Proof.
  revert s. induction vcs as [|[env vc] rest IH]; intros s H; cbn [check_channels].
  - apply (keeps_ret tt H).
  - apply keeps_bind.
    + apply keeps_check_channel, H.
    + intros _ s1 H1. apply IH, H1.
Qed.

Lemma keeps_on_ready cfg guilds s :
  consistent s -> keeps s (on_ready cfg guilds s).
Proof.
  intros H. unfold on_ready. apply keeps_bind.
  - destruct H; keeps_done.
  - clear s H. intros _ s H. revert s H.
    induction guilds as [|g rest IH]; intros s H; cbn [check_guilds].
    + apply (keeps_ret tt H).
    + apply keeps_bind.
      * apply keeps_check_channels, H.
      * intros _ s1 H1. apply IH, H1.
Qed.

Lemma keeps_handle cfg e s : consistent s -> keeps s (handle cfg e s).
Proof.
  intros H. destruct e; cbn [handle].
  - apply keeps_check_channel, H.
  - apply keeps_on_ready, H.
  - apply keeps_on_voice_state_update, H.
  - apply keeps_start_recording, H.
  - apply keeps_run_task, H.
  - apply keeps_stop, H.
  - apply keeps_force_stop, H.
  - apply keeps_cog_unload, H.
Qed.

Lemma run_keeps cfg es s :
  consistent s ->
  consistent (fst (run cfg es s))
  /\ forall k,
       at_most_one k (sessions s) (snd (run cfg es s)) = true
       /\ live_after k (sessions s) (snd (run cfg es s))
          = sessions (fst (run cfg es s)).
Proof.
  revert s. induction es as [|e rest IH]; intros s H; cbn [run].
  - cbn [fst snd at_most_one live_after fold_left].
    split; [exact H|]. intros k. destruct H; split; reflexivity.
  - pose proof (keeps_handle cfg e H) as (Hc & Hk).
    destruct (handle cfg e s) as [[r s1] t1]. unfold final, trace in *.
    cbn [fst snd] in *.
    specialize (IH s1 Hc). destruct (run cfg rest s1) as [s2 t2].
    cbn [fst snd] in *. destruct IH as (Hc2 & Hk2).
    split; [exact Hc2|]. intros k.
    destruct (Hk k) as (Ha & Hl). destruct (Hk2 k) as (Ha2 & Hl2).
    rewrite at_most_one_app, live_after_app, Ha, Hl. auto.
Qed.

(** ** Start requests while a session is active *)

Lemma start_recording_when_recording cfg env c s :
  recording s = true -> start_recording cfg env c s = (Returned tt, s, []).
Proof.
  intros R. unfold start_recording. rewrite bind_gets, R. reflexivity.
Qed.

Lemma check_channel_when_recording cfg env c s :
  recording s = true ->
  check_channel cfg env c s =
  if (member_count c <? 3)%nat && py_eq (current_recording_channel s) (Some c)
  then stop_recording cfg env true false s
  else (Returned tt, s, []).
Proof.
  intros R. unfold check_channel. rewrite !bind_gets, R.
  cbn [negb]. rewrite andb_false_r, andb_true_r.
  destruct ((member_count c <? 3)%nat
            && py_eq (current_recording_channel s) (Some c)); reflexivity.
Qed.


(** ** Cleanup and stop *)


Lemma ends_here (R : Trace) : exists before, R = before ++ R.
Proof. exists []. reflexivity. Qed.

Lemma ends_later (x : Effect) (t R : Trace) :
  (exists before, t = before ++ R) -> exists before, x :: t = before ++ R.
Proof. intros [b E]. exists (x :: b). rewrite E. reflexivity. Qed.

Lemma stop_recording_active cfg env a e s :
  recording s = true ->
  final (stop_recording cfg env a e s) = init_bot
  /\ exists before,
       trace (stop_recording cfg env a e s) = before ++ releases s.
Proof.
  intros R. split_env env. destruct s as [r vc cur fs au st].
  cbn [recording] in R. subst r.
  destruct fs as [|f fs], vc as [v|], cur as [c|], au as [u|], st as [t|],
    flush_ok0, reason_send_ok0, saved_send_ok0, error_send_ok0;
    run_co; cbn [releases stream audio voice_client app];
    (split; [reflexivity | repeat first [apply ends_here | apply ends_later]]).
Qed.

(** ** Stopping twice *)

Lemma stop_recording_when_idle cfg env a e s :
  recording s = false -> stop_recording cfg env a e s = (Returned tt, s, []).
Proof.
  intros R. unfold stop_recording. rewrite bind_gets, R. reflexivity.
Qed.

Lemma files_written_app (t1 t2 : Trace) :
  files_written (t1 ++ t2) = (files_written t1 + files_written t2)%nat.
Proof.
  unfold files_written. rewrite filter_app, length_app. reflexivity.
Qed.

Lemma stop_recording_files cfg env a e s :
  files_written (trace (stop_recording cfg env a e s))
  = if recording s && flushes env s then 1%nat else 0%nat.
Proof.
  split_env env. destruct s as [r vc cur fs au st].
  destruct r; [|reflexivity].
  destruct fs as [|f fs], vc as [v|], cur as [c|], au as [u|], st as [t|],
    flush_ok0, reason_send_ok0, saved_send_ok0, error_send_ok0;
    reflexivity.
Qed.

(** A session stopped before any frame was read: two stops in a row
    write no file at all, not one. *)

Lemma stop_twice_on_empty_buffer :
  let s := session_of lobby [] in
  let first := stop_recording sample_cfg all_ok false false s in
  let second := stop_recording sample_cfg all_ok false false (final first) in
  recording s = true
  /\ files_written (trace first ++ trace second) = 0%nat
  /\ files_written (trace first ++ trace second) <> 1%nat.
Proof.
  cbv zeta. split; [reflexivity|]. split; [reflexivity|]. discriminate.
Qed.

(** C3 (as the code has it). A stop on a bot that is not recording
    returns at once, with the bot unchanged and no call made.  After any
    stop, a second stop right away is such a no-op.  So two stops in a
    row write as many files as the first alone: one when the session had
    frames, the audio handle was there and the write went through, none
    otherwise (in particular none when the buffer was empty). *)

Theorem stop_recording_twice cfg env env' (a e a' e' : bool) s :
  let first := stop_recording cfg env a e s in
  let second := stop_recording cfg env' a' e' (final first) in
  (recording s = false -> first = (Returned tt, s, []))
  /\ second = (Returned tt, final first, [])
  /\ files_written (trace first ++ trace second)
     = (if recording s && flushes env s then 1 else 0)%nat.
Proof.
  cbv zeta. split; [|split].
  - apply stop_recording_when_idle.
  - apply stop_recording_when_idle.
    destruct (recording s) eqn:R.
    + rewrite (proj1 (stop_recording_active cfg env a e s R)). reflexivity.
    + rewrite (stop_recording_when_idle cfg env a e s R). exact R.
  - rewrite files_written_app, stop_recording_files.
    rewrite (stop_recording_files cfg env' a' e').
    replace (recording (final (stop_recording cfg env a e s))) with false.
    + cbn [andb]. lia.
    + destruct (recording s) eqn:R.
      * rewrite (proj1 (stop_recording_active cfg env a e s R)). reflexivity.
      * rewrite (stop_recording_when_idle cfg env a e s R). symmetry. exact R.
Qed.

Lemma stop_recording_twice_witness :
  recording init_bot = false
  /\ stop_recording sample_cfg all_ok true false init_bot
     = (Returned tt, init_bot, []).
Proof.
  split; [reflexivity|].
  exact (proj1 (stop_recording_twice sample_cfg all_ok all_ok true false
                  true false init_bot) eq_refl).
Defined.

(** ** The quorum rule *)


(** C4. A membership change of channel [c] with [n] people that are not
    bots: with [n >= 3] and the bot not recording, [check_channel] is
    [start_recording c], which goes for the connection to [c] first; with
    [n < 3] and the bot recording a channel equal to [c], it is
    [stop_recording(auto_stopped=True)], which leaves the bot reset; in
    every other case (such as [n < 3] in another channel than the
    recorded one, or [n >= 3] while recording) it returns with the bot
    unchanged and no call made. *)


(** Three people in the lobby while idle: a start; two people left in
    the recorded lounge: a stop; two people in the lobby while the lounge
    is recorded: nothing. *)


(** ** What a stop writes *)

Lemma files_written_payloads (t : Trace) :
  files_written t = List.length (payloads t).
Proof.
  unfold files_written.
  induction t as [|[[]|[]] t IH]; cbn [filter is_write payloads List.length];
    congruence.
Qed.

Lemma payloads_stop_recording cfg env a e s :
  recording s = true ->
  payloads (trace (stop_recording cfg env a e s))
  = if flushes env s then [join (frames s)] else [].
Proof.
  intros R. split_env env. destruct s as [r vc cur fs au st].
  cbn [recording] in R. subst r.
  destruct fs as [|f fs], vc as [v|], cur as [c|], au as [u|], st as [t|],
    flush_ok0, reason_send_ok0, saved_send_ok0, error_send_ok0;
    reflexivity.
Qed.

Lemma record_loop_iteration_reads cfg env d s :
  recording s = true -> stream s <> None -> read_data env = Some d ->
  record_loop_iteration cfg env s
  = (Returned true, set_frames (frames s ++ [d]) s,
     [Did (StreamRead (CHUNK cfg))]).
Proof.
  intros R S D. split_env env. destruct s as [r vc cur fs au [t|]];
    cbn [recording stream read_data] in *; [|contradiction].
  subst. reflexivity.
Qed.

(** ** The two stop commands *)

Lemma not_present_not_in_channel ctx c :
  ~ present_in ctx c -> author_in_channel ctx (Some c) = false.
Proof.
  intros H. unfold author_in_channel.
  destruct (voice (author ctx)) as [[[c'|]]|] eqn:V; cbn [vs_channel py_eq];
    try reflexivity.
  unfold channel_eqb. destruct (Nat.eqb (chan_id c') (chan_id c)) eqn:E;
    [|reflexivity].
  exfalso. apply H. exists {| vs_channel := Some c' |}, c'.
  split; [exact V|]. split; [reflexivity|]. apply Nat.eqb_eq, E.
Qed.

Lemma call_result (k : Call) (ok : bool) (s : Bot) :
  call k ok s
  = (if ok then Returned tt else Raised, s, [shown k ok]).
Proof. destruct ok; reflexivity. Qed.

(** C7. While a session is recorded in channel [c], [!stop] from a
    requester who is not in [c] (in no voice channel, or in another one)
    and [!forcestop] from a requester who is not an administrator do one
    thing only: they send the denial to the requester.  The bot is
    unchanged, so nothing is stopped, cleaned up or written.  The same
    holds when nothing is recorded: the answer is then that the bot is not
    recording. *)

Theorem denied_stop_changes_nothing cfg env (ctx : Context) (c : Channel) s :
  (recording s = true -> current_recording_channel s = Some c ->
   ~ present_in ctx c ->
   stop cfg env ctx s
   = (if ctx_send_ok env then Returned tt else Raised, s,
      [shown (CtxSend MSG_NOT_IN_CHANNEL) (ctx_send_ok env)]))
  /\ (recording s = true -> administrator (author ctx) = false ->
      force_stop cfg env ctx s
      = (if ctx_send_ok env then Returned tt else Raised, s,
         [shown (CtxSend MSG_ADMIN_ONLY) (ctx_send_ok env)]))
  /\ (recording s = false ->
      stop cfg env ctx s
      = (if ctx_send_ok env then Returned tt else Raised, s,
         [shown (CtxSend MSG_NOT_RECORDING) (ctx_send_ok env)])
      /\ force_stop cfg env ctx s = stop cfg env ctx s).
Proof.
  split; [|split].
  - intros R C P. unfold stop. rewrite bind_gets, R. cbn [negb].
    rewrite bind_gets, C, (not_present_not_in_channel P).
    apply call_result.
  - intros R A. unfold force_stop. rewrite bind_gets, R, A. cbn [negb].
    apply call_result.
  - intros R. unfold stop, force_stop. rewrite !bind_gets, R. cbn [negb].
    split; [apply call_result | reflexivity].
Qed.

(** A user sitting in the lobby, not an administrator, while the lounge
    is recorded. *)

Lemma denied_stop_changes_nothing_witness :
  final (stop sample_cfg all_ok outsider (session_of (lounge 3) [frame_a]))
  = session_of (lounge 3) [frame_a]
  /\ final (force_stop sample_cfg all_ok outsider
              (session_of (lounge 3) [frame_a]))
     = session_of (lounge 3) [frame_a].
Proof.
  assert (P : ~ present_in outsider (lounge 3)).
  { intros (v & c' & V & C & E). cbn in V. injection V as <-.
    cbn in C. injection C as <-. discriminate E. }
  pose proof (denied_stop_changes_nothing sample_cfg all_ok outsider
                (lounge 3) (session_of (lounge 3) [frame_a])) as [H1 [H2 _]].
  rewrite (H1 eq_refl eq_refl P), (H2 eq_refl eq_refl).
  split; reflexivity.
Defined.

(** ** Runs of events *)

Lemma run_app cfg (es1 es2 : list Event) s :
  run cfg (es1 ++ es2) s
  = (fst (run cfg es2 (fst (run cfg es1 s))),
     snd (run cfg es1 s) ++ snd (run cfg es2 (fst (run cfg es1 s)))).
Proof.
  revert s. induction es1 as [|e es1 IH]; intros s; cbn [app run fst snd].
  - destruct (run cfg es2 s). reflexivity.
  - destruct (handle cfg e s) as [[r s1] t1]. rewrite IH.
    destruct (run cfg es1 s1) as [s2 t2]. cbn [fst snd].
    rewrite app_assoc. reflexivity.
Qed.

Lemma run_final cfg e es s :
  fst (run cfg (e :: es) s) = fst (run cfg es (final (handle cfg e s))).
Proof.
  cbn [run]. unfold final. destruct (handle cfg e s) as [[r s1] t1].
  cbn [fst snd]. destruct (run cfg es s1). reflexivity.
Qed.

Lemma sessions_opened_app (t1 t2 : Trace) :
  sessions_opened (t1 ++ t2) = (sessions_opened t1 + sessions_opened t2)%nat.
Proof. unfold sessions_opened. rewrite filter_app, length_app. reflexivity. Qed.

Lemma sessions_closed_app (t1 t2 : Trace) :
  sessions_closed (t1 ++ t2) = (sessions_closed t1 + sessions_closed t2)%nat.
Proof. unfold sessions_closed. rewrite filter_app, length_app. reflexivity. Qed.

Lemma check_channel_when_idle cfg env c s :
  recording s = false ->
  check_channel cfg env c s
  = if (3 <=? member_count c)%nat then start_recording cfg env c s
    else (Returned tt, s, []).
Proof.
  intros R. unfold check_channel. rewrite !bind_gets, R.
  cbn [negb]. rewrite andb_true_r, andb_false_r.
  destruct (3 <=? member_count c)%nat; reflexivity.
Qed.

(** * Further properties of the session code *)

(** ** Starting *)

(** X1. On a bot that is not recording, when connect, device and stream
    open all go through, [start_recording] returns with a whole session on
    [channel] and an empty buffer, whatever the other attributes held and
    whether or not the announcement could be sent; it opens one
    connection, one device and one stream, announces once to [channel]
    and schedules the record loop once. *)

Theorem start_recording_opens_a_session cfg env (channel : Channel) s :
  recording s = false -> start_ok env = true ->
  let x := start_recording cfg env channel s in
  outcome x = Returned tt
  /\ final x = session_of channel []
  /\ (forall k, live_after k 0 (trace x) = 1%Z)
  /\ sent (trace x) = [(channel, MSG_STARTED)]
  /\ tasks_created (trace x) = [RecordLoop].
Proof.
  intros R O. split_env env. destruct s as [r vc cur fs au st].
  cbn [recording] in R. subst r.
  unfold start_ok in O. cbn [connect_ok pyaudio_ok open_ok] in O.
  destruct connect_ok0, pyaudio_ok0, open_ok0; try discriminate O.
  destruct announce_ok0; cbv zeta; run_co;
    (split; [reflexivity|]); (split; [reflexivity|]);
    (split; [intros []; reflexivity|]); split; reflexivity.
Qed.

Lemma start_recording_opens_a_session_witness :
  final (start_recording sample_cfg all_ok lobby init_bot)
  = session_of lobby [].
Proof.
  exact (proj1 (proj2 (@start_recording_opens_a_session sample_cfg all_ok
                         lobby init_bot eq_refl eq_refl))).
Defined.

(** ** The record loop *)

(** X3. While the bot is recording and the reads return, the record loop
    appends each chunk at the end of the buffer, in the order read, and
    touches nothing else: one read per turn is its only call. *)

Theorem record_loop_buffers_in_order cfg env (fs : list Frame) s :
  recording s = true -> stream s <> None ->
  record_loop cfg (map (fun f => reading env (Some f)) fs) s
  = (Returned tt, set_frames (frames s ++ fs) s,
     map (fun _ => Did (StreamRead (CHUNK cfg))) fs).
Proof.
  revert s. induction fs as [|f fs IH]; intros s R S; cbn [map record_loop].
  - rewrite app_nil_r. destruct s; reflexivity.
  - unfold bind at 1.
    rewrite (@record_loop_iteration_reads cfg (reading env (Some f)) f s R S
               eq_refl).
    rewrite (IH (set_frames (frames s ++ [f]) s) R S).
    cbn [frames set_frames app]. rewrite <- app_assoc.
    destruct s; reflexivity.
Qed.

Lemma record_loop_buffers_in_order_witness :
  final (record_loop sample_cfg
           [reading all_ok (Some frame_b); reading all_ok (Some frame_a)]
           (session_of lobby [frame_a]))
  = session_of lobby [frame_a; frame_b; frame_a].
Proof.
  refine (f_equal final
            (@record_loop_buffers_in_order sample_cfg all_ok
               [frame_b; frame_a] (session_of lobby [frame_a]) eq_refl _)).
  discriminate.
Defined.



(** X4. Once a stop has run, on whatever bot and however it ended, the
    record loop reads nothing more: given any number of turns, it finds
    the flag off at the first one and ends with the bot untouched and no
    call made.  The same holds after [cleanup_recording]. *)


(** ** The commands, when they are honoured *)



(** X7. [!stop] from a requester who sits in the recorded channel stops
    the session as a manual stop: the bot is left reset.  The requester is
    told that the recording was stopped by command when the stop
    returned; when the stop ended by exception, the command ends with it
    and nothing is sent to the requester. *)



(** X8. [!forcestop] from an administrator stops the session wherever
    the administrator is, in another voice channel or in none: the bot is
    left reset, and the requester is told that the recording was force
    stopped when the stop returned. *)



(** ** A member moving between channels *)

Lemma check_channel_stops cfg env (a a' : Channel) (fs : list Frame) :
  chan_id a' = chan_id a -> (member_count a' < 3)%nat ->
  check_channel cfg env a' (session_of a fs)
  = stop_recording cfg env true false (session_of a fs).
Proof.
  intros E H. rewrite check_channel_when_recording by reflexivity.
  cbn [current_recording_channel session_of py_eq]. unfold channel_eqb.
  rewrite E, Nat.eqb_refl. apply Nat.ltb_lt in H. rewrite H. reflexivity.
Qed.

Lemma check_channel_starts cfg env (b : Channel) :
  (3 <= member_count b)%nat ->
  check_channel cfg env b init_bot = start_recording cfg env b init_bot.
Proof.
  intros H. rewrite check_channel_when_idle by reflexivity.
  apply Nat.leb_le in H. rewrite H. reflexivity.
Qed.

Lemma start_recording_from_idle cfg env (b : Channel) :
  start_ok env = true ->
  outcome (start_recording cfg env b init_bot) = Returned tt
  /\ final (start_recording cfg env b init_bot) = session_of b []
  /\ payloads (trace (start_recording cfg env b init_bot)) = [].
Proof.
  intros O. split_env env.
  unfold start_ok in O. cbn [connect_ok pyaudio_ok open_ok] in O.
  destruct connect_ok0, pyaudio_ok0, open_ok0; try discriminate O.
  destruct announce_ok0; repeat split.
Qed.

Lemma payloads_app (t1 t2 : Trace) :
  payloads (t1 ++ t2) = payloads t1 ++ payloads t2.
Proof.
  induction t1 as [|x t1 IH]; [reflexivity|].
  destruct x as [k|k]; destruct k; cbn [app payloads]; rewrite IH;
    reflexivity.
Qed.

(** X9. A member moves from the recorded channel, left with fewer than
    three people, to a channel that now has three or more.  The channel
    left is checked first, so when its stop returns and the outside calls
    of the start go through, the one event ends the session there, with
    its buffer written if it had frames and the write went through, and
    opens a session with an empty buffer on the channel joined. *)

Theorem voice_move_hands_the_recording_over cfg eb ea
    (a a' b : Channel) (fs : list Frame) :
  chan_id a' = chan_id a -> (member_count a' < 3)%nat ->
  (3 <= member_count b)%nat -> start_ok ea = true ->
  outcome (stop_recording cfg eb true false (session_of a fs)) = Returned tt ->
  let x := on_voice_state_update cfg eb ea (sitting_in a') (sitting_in b)
             (session_of a fs) in
  outcome x = Returned tt
  /\ final x = session_of b []
  /\ trace x = trace (stop_recording cfg eb true false (session_of a fs))
               ++ trace (start_recording cfg ea b init_bot)
  /\ payloads (trace x) = payload_of eb fs.
Proof.
  intros E Ha Hb O R. cbv zeta.
  unfold on_voice_state_update, sitting_in. cbn [vs_channel].
  unfold bind. rewrite (@check_channel_stops cfg eb a a' fs E Ha).
  pose proof (proj1 (@stop_recording_active cfg eb true false
                       (session_of a fs) eq_refl)) as F.
  pose proof (@payloads_stop_recording cfg eb true false
                (session_of a fs) eq_refl) as P.
  destruct (stop_recording cfg eb true false (session_of a fs))
    as [[[u|] s1] t1]; [|discriminate R].
  unfold final, trace in F, P. cbn [fst snd] in F, P. subst s1.
  rewrite (@check_channel_starts cfg ea b Hb).
  destruct (@start_recording_from_idle cfg ea b O) as (O1 & O2 & O3).
  destruct (start_recording cfg ea b init_bot) as [[r2 s2] t2].
  unfold outcome, final, trace in *. cbn [fst snd] in *. subst r2 s2.
  repeat split.
  rewrite payloads_app, O3, app_nil_r, P.
  unfold flushes, payload_of. cbn [frames audio session_of].
  destruct fs; reflexivity.
Qed.

Lemma voice_move_hands_the_recording_over_witness :
  final (on_voice_state_update sample_cfg all_ok all_ok
           (sitting_in (lounge 2)) (sitting_in lobby)
           (session_of (lounge 3) [frame_a]))
  = session_of lobby [].
Proof.
  refine (proj1 (proj2 (@voice_move_hands_the_recording_over sample_cfg
                          all_ok all_ok (lounge 3) (lounge 2) lobby [frame_a]
                          eq_refl _ _ eq_refl eq_refl))).
  - cbn. lia.
  - cbn. lia.
Defined.

(** X10. In the same move, when the stop of the channel left ends by
    exception, the handler ends with it: the channel joined is never
    checked, so the bot stays idle although that channel has three or
    more people, and no connection is made. *)


(** The write fails and the failure cannot be told: the lobby, although
    it has three people, is not recorded. *)


(** ** Becoming ready *)

Lemma bind_assoc {A B C} (m : M A) (f : A -> M B) (g : B -> M C) (s : Bot) :
  bind (bind m f) g s = bind m (fun a => bind (f a) g) s.
Proof.
  unfold bind. destruct (m s) as [[[a|] s1] t1]; [|reflexivity].
  destruct (f a s1) as [[[b|] s2] t2]; [|reflexivity].
  destruct (g b s2) as [[r s3] t3]. rewrite app_assoc. reflexivity.
Qed.

Lemma bind_same {A B} (m : M A) (f g : A -> M B) (s : Bot) :
  (forall a s1, f a s1 = g a s1) -> bind m f s = bind m g s.
Proof.
  intros H. unfold bind. destruct (m s) as [[[a|] s1] t1]; [|reflexivity].
  rewrite H. reflexivity.
Qed.

Lemma bind_ret_first {B} (m : M B) (s : Bot) : bind (ret tt) (fun _ => m) s = m s.
Proof. unfold bind, ret. destruct (m s) as [[r s1] t1]. reflexivity. Qed.

Lemma check_channels_app cfg (l1 l2 : list (Env * Channel)) s :
  check_channels cfg (l1 ++ l2) s
  = (check_channels cfg l1 ;; check_channels cfg l2) s.
Proof.
  revert s. induction l1 as [|[env c] l1 IH]; intros s; cbn [app check_channels].
  - rewrite bind_ret_first. reflexivity.
  - rewrite bind_assoc. apply bind_same. intros _ s1. apply IH.
Qed.

Lemma check_guilds_concat cfg (guilds : list (list (Env * Channel))) s :
  check_guilds cfg guilds s = check_channels cfg (List.concat guilds) s.
Proof.
  revert s. induction guilds as [|g rest IH]; intros s;
    cbn [check_guilds List.concat]; [reflexivity|].
  rewrite check_channels_app. apply bind_same. intros _ s1. apply IH.
Qed.

Lemma check_channels_below_quorum cfg (l : list (Env * Channel)) s :
  recording s = false ->
  Forall (fun p => (member_count (snd p) < 3)%nat) l ->
  check_channels cfg l s = (Returned tt, s, []).
Proof.
  intros R H. induction H as [|[env c] l Hc Hl IH]; [reflexivity|].
  cbn [check_channels snd] in *. unfold bind.
  rewrite check_channel_when_idle by exact R.
  apply Nat.leb_gt in Hc. rewrite Hc. rewrite IH. reflexivity.
Qed.

Lemma check_channels_while_recording cfg (l : list (Env * Channel))
    (c : Channel) (fs : list Frame) :
  Forall (fun p => (3 <= member_count (snd p))%nat
                   \/ chan_id (snd p) <> chan_id c) l ->
  check_channels cfg l (session_of c fs) = (Returned tt, session_of c fs, []).
Proof.
  intros H. induction H as [|[env c'] l Hc Hl IH]; [reflexivity|].
  cbn [check_channels snd] in *. unfold bind.
  rewrite check_channel_when_recording by reflexivity.
  cbn [current_recording_channel session_of py_eq]. unfold channel_eqb.
  replace ((member_count c' <? 3)%nat && Nat.eqb (chan_id c) (chan_id c'))
    with false.
  - rewrite IH. reflexivity.
  - symmetry. destruct Hc as [Hc|Hc].
    + apply Nat.ltb_ge in Hc. rewrite Hc. reflexivity.
    + apply andb_false_iff. right. apply Nat.eqb_neq. congruence.
Qed.

(** X11. When the bot becomes ready, the voice channels are checked in
    order, guild after guild, and the first one with three or more people
    is the one recorded: the channels before it, short of quorum, cause no
    call, and the channels after it, whatever their number of people, are
    left alone.  (A later snapshot of the very channel recorded, short of
    quorum, would stop it: channel ids are taken to differ.) *)

Theorem on_ready_records_the_first_quorum cfg
    (guilds : list (list (Env * Channel)))
    (pre post : list (Env * Channel)) (env : Env) (c : Channel) :
  List.concat guilds = pre ++ (env, c) :: post ->
  Forall (fun p => (member_count (snd p) < 3)%nat) pre ->
  (3 <= member_count c)%nat -> start_ok env = true ->
  Forall (fun p => (3 <= member_count (snd p))%nat
                   \/ chan_id (snd p) <> chan_id c) post ->
  let x := on_ready cfg guilds init_bot in
  outcome x = Returned tt
  /\ final x = session_of c []
  /\ trace x = Did (Log Info "Bot is ready! Logged in as ")
               :: trace (start_recording cfg env c init_bot).
Proof.
  intros G Hpre Hc O Hpost. cbv zeta.
  assert (X : on_ready cfg guilds init_bot
              = (Returned tt, session_of c [],
                 Did (Log Info "Bot is ready! Logged in as ")
                 :: trace (start_recording cfg env c init_bot))).
  { unfold on_ready. unfold bind at 1, did, emit.
    rewrite check_guilds_concat, G, check_channels_app.
    unfold bind at 1.
    rewrite (@check_channels_below_quorum cfg pre init_bot eq_refl Hpre).
    cbn [check_channels app]. unfold bind at 1.
    rewrite (@check_channel_starts cfg env c Hc).
    destruct (@start_recording_from_idle cfg env c O) as (O1 & O2 & O3).
    destruct (start_recording cfg env c init_bot) as [[r2 s2] t2].
    unfold outcome, final, trace in *. cbn [fst snd] in *. subst r2 s2.
    rewrite (@check_channels_while_recording cfg post c [] Hpost).
    cbn [fst snd app]. rewrite ?app_nil_r. reflexivity. }
  rewrite X. repeat split.
Qed.

(** Two guilds: the lounge with two people, then the lobby with three and
    the lounge of the second guild with four. *)

Lemma on_ready_records_the_first_quorum_witness :
  final (on_ready sample_cfg
           [[(all_ok, lounge 2)];
            [(all_ok, lobby);
             (all_ok, {| chan_id := 9; members := members (lounge 4) |})]]
           init_bot)
  = session_of lobby [].
Proof.
  refine (proj1 (proj2 (@on_ready_records_the_first_quorum sample_cfg
            [[(all_ok, lounge 2)];
             [(all_ok, lobby);
              (all_ok, {| chan_id := 9; members := members (lounge 4) |})]]
            [(all_ok, lounge 2)]
            [(all_ok, {| chan_id := 9; members := members (lounge 4) |})]
            all_ok lobby eq_refl _ _ eq_refl _))).
  - constructor; [cbn; lia | constructor].
  - cbn. lia.
  - constructor; [left; cbn; lia | constructor].
Defined.

(** X12. When no voice channel has three people that are not bots, the
    bot becomes ready without any call on the outside but its log line,
    and stays as [__init__] left it. *)

Theorem on_ready_without_quorum cfg (guilds : list (list (Env * Channel))) :
  Forall (fun p => (member_count (snd p) < 3)%nat) (List.concat guilds) ->
  on_ready cfg guilds init_bot
  = (Returned tt, init_bot, [Did (Log Info "Bot is ready! Logged in as ")]).
Proof.
  intros H. unfold on_ready. unfold bind at 1, did, emit. cbn [app].
  rewrite check_guilds_concat.
  rewrite (@check_channels_below_quorum cfg (List.concat guilds) init_bot eq_refl H).
  reflexivity.
Qed.

Lemma on_ready_without_quorum_witness :
  final (on_ready sample_cfg [[(all_ok, lounge 2)]; []; [(all_ok, lounge 0)]]
           init_bot)
  = init_bot.
Proof.
  refine (f_equal final
            (@on_ready_without_quorum sample_cfg
               [[(all_ok, lounge 2)]; []; [(all_ok, lounge 0)]] _)).
  repeat constructor.
Defined.

(** ** Who counts *)

Lemma member_count_app i (l1 l2 : list Member) :
  member_count {| chan_id := i; members := l1 ++ l2 |}
  = (member_count {| chan_id := i; members := l1 |}
     + member_count {| chan_id := i; members := l2 |})%nat.
Proof.
  unfold member_count. cbn [members]. rewrite filter_app, length_app.
  reflexivity.
Qed.

(** X13. Bots do not count towards the quorum.  A bot joining a channel,
    wherever it stands in the member list, leaves the count as it was; and
    a channel that holds bots only, however many, never makes an idle bot
    start: [check_channel] returns with the bot unchanged and no call
    made. *)

Theorem bots_do_not_count cfg env (i : nat) (l1 l2 : list Member)
    (m : Member) (c : Channel) (s : Bot) :
  bot m = true ->
  Forall (fun x => bot x = true) (members c) ->
  recording s = false ->
  member_count {| chan_id := i; members := l1 ++ m :: l2 |}
  = member_count {| chan_id := i; members := l1 ++ l2 |}
  /\ member_count c = 0%nat
  /\ check_channel cfg env c s = (Returned tt, s, []).
Proof.
  intros Hm Hall R.
  assert (Z0 : member_count c = 0%nat).
  { unfold member_count. destruct c as [j ms]. cbn [members] in *.
    induction Hall as [|x l Hx Hl IH]; [reflexivity|].
    cbn [filter]. rewrite Hx. cbn [negb]. exact IH. }
  split; [|split; [exact Z0|]].
  - rewrite !member_count_app. f_equal.
    unfold member_count. cbn [members filter]. rewrite Hm. reflexivity.
  - rewrite check_channel_when_idle by exact R. rewrite Z0. reflexivity.
Qed.

Lemma bots_do_not_count_witness :
  member_count (lounge 2) = 2%nat
  /\ check_channel sample_cfg all_ok
       {| chan_id := 5; members := [robot; robot; robot; robot] |} init_bot
     = (Returned tt, init_bot, []).
Proof.
  split; [reflexivity|].
  refine (proj2 (proj2 (@bots_do_not_count sample_cfg all_ok 7 [] [human]
                          robot
                          {| chan_id := 5;
                             members := [robot; robot; robot; robot] |}
                          init_bot eq_refl _ eq_refl))).
  repeat constructor.
Defined.

(** ** What ends up in the files *)

(** X15. The file of a recording is named after the time of the stop
    alone: it is [nouncil_recording_<time>.wav] in the recordings
    directory, and the name announced to the channel as saved is that
    name without its extension.  So two sessions stopped at the same
    formatted time, whatever their channel and frames, are written to the
    same path. *)

Theorem recording_is_named_after_the_time cfg env env' (a e a' e' : bool)
    (c c' : Channel) (f f' : Frame) (fs fs' : list Frame) :
  flush_ok env = true -> flush_ok env' = true ->
  reason_send_ok env = true -> now env = now env' ->
  let x := stop_recording cfg env a e (session_of c (f :: fs)) in
  let x' := stop_recording cfg env' a' e' (session_of c' (f' :: fs')) in
  files_named (trace x)
  = [(RECORDINGS_DIR cfg, (recording_name env ++ ".wav")%string)]
  /\ In (shown (ChannelSend c ("Recording saved as: "
                               ++ recording_name env)%string)
               (saved_send_ok env))
        (trace x)
  /\ files_named (trace x') = files_named (trace x).
Proof.
  intros F F' Rs N. cbv zeta. unfold recording_name.
  split_env env.
  destruct env' as [co1 py1 op1 an1 rd1 now1 flush_ok1 reason_send_ok1
                    saved_send_ok1 error_send_ok1 cx1].
  cbn [flush_ok reason_send_ok now saved_send_ok] in *. subst.
  destruct saved_send_ok0, error_send_ok0, reason_send_ok1, saved_send_ok1,
    error_send_ok1; run_co; cbn [files_named In];
    (split; [reflexivity|]); (split; [|reflexivity]); tauto.
Qed.

Lemma recording_is_named_after_the_time_witness :
  files_named (trace (stop_recording sample_cfg all_ok true false
                        (session_of lobby [frame_a])))
  = [("recordings", "nouncil_recording_20240101_120000.wav")].
Proof.
  exact (proj1 (@recording_is_named_after_the_time sample_cfg all_ok all_ok
                  true false false false lobby (lounge 3) frame_a frame_b
                  [] [] eq_refl eq_refl eq_refl eq_refl)).
Defined.

(** ** What no run ever does *)















(** X16. Along every run from the initial bot, the capture stream is
    read only while it is open: no read is made before a stream was
    opened or after it was closed, whatever the order of the events and
    whatever fails. *)


(** ** Repeated checks *)


(** X18. Checking the same snapshot of a channel a second time changes
    nothing, provided the start the first check may have made went
    through: from a bot that is idle or holds a session, the second
    [check_channel] returns with the bot unchanged and no call made.
    This is what happens on a voice update inside one channel (a mute,
    say), where the channel is checked as the one left and as the one
    joined. *)

Theorem second_check_changes_nothing cfg env env' (c : Channel) s :
  consistent s -> start_ok env = true ->
  check_channel cfg env' c (final (check_channel cfg env c s))
  = (Returned tt, final (check_channel cfg env c s), []).
Proof.
  intros H O. destruct H as [|c0 fs].
  - rewrite (@check_channel_when_idle cfg env c init_bot eq_refl).
    destruct (3 <=? member_count c)%nat eqn:E.
    + destruct (@start_recording_from_idle cfg env c O) as (_ & F & _).
      rewrite F. rewrite check_channel_when_recording by reflexivity.
      apply Nat.leb_le in E.
      replace (member_count c <? 3)%nat with false
        by (symmetry; apply Nat.ltb_ge, E).
      reflexivity.
    + unfold final. cbn [fst snd].
      rewrite check_channel_when_idle by reflexivity. rewrite E.
      reflexivity.
  - rewrite (@check_channel_when_recording cfg env c (session_of c0 fs)
               eq_refl).
    destruct ((member_count c <? 3)%nat
              && py_eq (current_recording_channel (session_of c0 fs))
                       (Some c)) eqn:E.
    + rewrite (proj1 (@stop_recording_active cfg env true false
                        (session_of c0 fs) eq_refl)).
      rewrite check_channel_when_idle by reflexivity.
      apply andb_true_iff in E. destruct E as [E _].
      apply Nat.ltb_lt in E.
      replace (3 <=? member_count c)%nat with false
        by (symmetry; apply Nat.leb_gt, E).
      reflexivity.
    + unfold final. cbn [fst snd].
      rewrite check_channel_when_recording by reflexivity. rewrite E.
      reflexivity.
Qed.

Lemma second_check_changes_nothing_witness :
  check_channel sample_cfg all_fail lobby
    (final (check_channel sample_cfg all_ok lobby init_bot))
  = (Returned tt, session_of lobby [], []).
Proof.
  exact (@second_check_changes_nothing sample_cfg all_ok all_fail lobby
           init_bot consistent_idle eq_refl).
Defined.

(** X19. A start that failed leaves nothing behind that would block the
    next one.  On a voice update inside one channel with three or more
    people, when the start of the first check fails, the second check
    starts again, and with its outside calls going through the session is
    opened. *)



(** X20. A read that raises ends the record loop for good: however many
    turns would remain, none is taken, so nothing is read or written
    after the stop the failure caused. *)

Theorem failed_read_ends_the_loop cfg env (more : list Env) s :
  read_data env = None ->
  record_loop cfg (env :: more) s = record_loop cfg [env] s.
Proof.
  intros D. cbn [record_loop]. unfold bind.
  assert (N : outcome (record_loop_iteration cfg env s) <> Returned true).
  { split_env env. cbn [read_data] in D. subst read_data0.
    destruct s as [r vc cur fs au st].
    destruct r; [|discriminate].
    destruct fs as [|f fs], vc, cur, au, st, flush_ok0, reason_send_ok0,
      saved_send_ok0, error_send_ok0; discriminate. }
  destruct (record_loop_iteration cfg env s) as [[[[|]|] s1] t1];
    [exfalso; apply N; reflexivity | reflexivity | reflexivity].
Qed.

Lemma failed_read_ends_the_loop_witness :
  record_loop sample_cfg
    [reading all_ok None; all_ok; all_ok] (session_of lobby [frame_a])
  = record_loop sample_cfg [reading all_ok None] (session_of lobby [frame_a]).
Proof.
  exact (@failed_read_ends_the_loop sample_cfg (reading all_ok None)
           [all_ok; all_ok] (session_of lobby [frame_a]) eq_refl).
Defined.

(** * With every outside call fallible *)

(** ** The two models agree when the five calls return *)

Lemma full_cleanup_recording_returns (s : Bot) :
  Full.cleanup_recording all_return s = cleanup_recording s.
Proof. destruct s as [r [v|] cur fs [a|] [st|]]; reflexivity. Qed.

Lemma full_start_recording_returns cfg env (c : Channel) (s : Bot) :
  Full.start_recording cfg env all_return c s = start_recording cfg env c s.
Proof.
  split_env env. destruct s as [r vc cur fs au st].
  destruct r; [reflexivity|].
  destruct vc, au, st, connect_ok0, pyaudio_ok0, open_ok0, announce_ok0;
    reflexivity.
Qed.

Lemma full_stop_recording_returns cfg env (a e : bool) (s : Bot) :
  audio s <> None \/ frames s = [] ->
  outcome (Full.stop_recording cfg env all_return a e s)
  = outcome (stop_recording cfg env a e s)
  /\ final (Full.stop_recording cfg env all_return a e s)
     = final (stop_recording cfg env a e s)
  /\ without_wave_open (trace (Full.stop_recording cfg env all_return a e s))
     = trace (stop_recording cfg env a e s).
Proof.
  intros H. split_env env. destruct s as [r vc cur fs au st].
  cbn [audio frames] in H.
  destruct r; [|repeat split].
  destruct fs as [|f fs]; [destruct vc, cur, au, st; repeat split|].
  destruct au as [u|]; [|destruct H as [H|H]; [contradiction | discriminate]].
  destruct vc, cur, st, flush_ok0, reason_send_ok0, saved_send_ok0,
    error_send_ok0; repeat split.
Qed.

(** ** Cleanup, when a release may raise *)

Lemma bind_modify {B} (f : Bot -> Bot) (k : unit -> M B) (s : Bot) :
  bind (modify f) k s = k tt (f s).
Proof.
  unfold bind, modify. destruct (k tt (f s)) as [[r s2] t2]. reflexivity.
Qed.

Lemma try_finally_result {A} (m : M A) (f : M unit) (s : Bot) :
  try_finally m f s
  = (match outcome (f (final (m s))) with
     | Returned _ => outcome (m s)
     | Raised => Raised
     end,
     final (f (final (m s))),
     trace (m s) ++ trace (f (final (m s)))).
Proof.
  unfold try_finally, outcome, final, trace.
  destruct (m s) as [[r s1] t1]. cbn [fst snd].
  destruct (f s1) as [[[u|] s2] t2]; reflexivity.
Qed.

Lemma full_cleanup_when_releases_return (out : Outside) (s : Bot) :
  releases_return out s = true ->
  Full.cleanup_recording out s = (Returned tt, init_bot, releases s).
Proof.
  split_out out. destruct s as [r [v|] cur fs [a|] [st|]];
    unfold releases_return;
    cbn [stream audio voice_client stop_stream_ok stream_close_ok
         terminate_ok disconnect_ok];
    destruct stop_stream_ok0, stream_close_ok0, terminate_ok0,
      disconnect_ok0; cbn [andb]; intros H; try discriminate H; reflexivity.
Qed.

Lemma full_cleanup_when_a_release_raises (out : Outside) (s : Bot) :
  releases_return out s = false ->
  outcome (Full.cleanup_recording out s) = Raised
  /\ final (Full.cleanup_recording out s) = s.
Proof.
  split_out out. destruct s as [r [v|] cur fs [a|] [st|]];
    unfold releases_return;
    cbn [stream audio voice_client stop_stream_ok stream_close_ok
         terminate_ok disconnect_ok];
    destruct stop_stream_ok0, stream_close_ok0, terminate_ok0,
      disconnect_ok0; cbn [andb]; intros H; try discriminate H;
    split; reflexivity.
Qed.




(** ** Stop, when a release may raise *)

Lemma full_save_recording_keeps_the_bot cfg env out (a e : bool)
    (cur : option Channel) (s : Bot) :
  final (Full.save_recording cfg env out a e cur s) = s.
Proof.
  split_env env. split_out out. destruct s as [r vc c fs au st].
  destruct fs as [|f fs]; [reflexivity|].
  destruct cur, au, wave_open_ok0, flush_ok0, reason_send_ok0,
    saved_send_ok0, error_send_ok0; reflexivity.
Qed.

Lemma full_stop_recording_when_recording cfg env out (a e : bool) (s : Bot) :
  recording s = true ->
  Full.stop_recording cfg env out a e s
  = try_finally
      (Full.save_recording cfg env out a e (current_recording_channel s))
      (Full.cleanup_recording out) (set_recording false s).
Proof.
  intros R. unfold Full.stop_recording. rewrite bind_gets, R.
  cbn [negb]. rewrite bind_modify, bind_gets. reflexivity.
Qed.

Lemma full_stop_recording_when_idle cfg env out (a e : bool) (s : Bot) :
  recording s = false ->
  Full.stop_recording cfg env out a e s = (Returned tt, s, []).
Proof.
  intros R. unfold Full.stop_recording. rewrite bind_gets, R. reflexivity.
Qed.

Lemma full_stop_recording_ends_in_cleanup cfg env out (a e : bool) (s : Bot) :
  recording s = true ->
  final (Full.stop_recording cfg env out a e s)
  = final (Full.cleanup_recording out (set_recording false s))
  /\ trace (Full.stop_recording cfg env out a e s)
     = trace (Full.save_recording cfg env out a e
                (current_recording_channel s) (set_recording false s))
       ++ trace (Full.cleanup_recording out (set_recording false s)).
Proof.
  intros R. rewrite (full_stop_recording_when_recording cfg env out a e s R).
  rewrite try_finally_result, full_save_recording_keeps_the_bot.
  split; reflexivity.
Qed.

Lemma releases_return_flag_off (out : Outside) (s : Bot) :
  releases_return out (set_recording false s) = releases_return out s.
Proof. reflexivity. Qed.

Lemma stop_recording_keeps_nothing_on cfg env out (a e : bool) (s : Bot) :
  recording s = true ->
  recording (final (Full.stop_recording cfg env out a e s)) = false
  /\ (releases_return out s = true ->
      final (Full.stop_recording cfg env out a e s) = init_bot).
Proof.
  intros R.
  destruct (full_stop_recording_ends_in_cleanup cfg env out a e s R) as [F _].
  rewrite F. destruct (releases_return out s) eqn:H.
  - rewrite (full_cleanup_when_releases_return out (set_recording false s) H).
    split; reflexivity.
  - rewrite (proj2 (full_cleanup_when_a_release_raises out
                      (set_recording false s) H)).
    split; [reflexivity | discriminate].
Qed.




(** ** What a stop leaves on disk *)

Lemma path_eqb_refl (p : Path) : path_eqb p p = true.
Proof. unfold path_eqb. rewrite !String.eqb_refl. reflexivity. Qed.

Lemma put_put (p : Path) (f g : FileState) (d : Disk) :
  put p f (put p g d) = put p f d.
Proof.
  induction d as [|[q h] d IH]; cbn [put].
  - rewrite path_eqb_refl. reflexivity.
  - destruct (path_eqb q p) eqn:E; cbn [put]; rewrite E; [reflexivity|].
    rewrite IH. reflexivity.
Qed.

Lemma disk_after_app (t1 t2 : Trace) (d : Disk) :
  disk_after (t1 ++ t2) d = disk_after t2 (disk_after t1 d).
Proof.
  revert d. induction t1 as [|x t1 IH]; intros d; [reflexivity|].
  destruct x as [k|k]; destruct k; cbn [app disk_after]; apply IH.
Qed.

Lemma full_cleanup_writes_nothing (out : Outside) (s : Bot) (d : Disk) :
  payloads (trace (Full.cleanup_recording out s)) = []
  /\ disk_after (trace (Full.cleanup_recording out s)) d = d.
Proof.
  split_out out. destruct s as [r [v|] cur fs [a|] [st|]];
    destruct stop_stream_ok0, stream_close_ok0, terminate_ok0,
      disconnect_ok0; split; reflexivity.
Qed.

Lemma full_save_recording_writes cfg env out (a e : bool)
    (cur : option Channel) (s : Bot) (d : Disk) :
  audio s <> None ->
  payloads (trace (Full.save_recording cfg env out a e cur s))
  = match saved (env, out) (frames s) with
    | Some (Complete p) => [p]
    | _ => []
    end
  /\ disk_after (trace (Full.save_recording cfg env out a e cur s)) d
     = store (recording_path cfg env) (saved (env, out) (frames s)) d.
Proof.
  intros A. split_env env. split_out out. destruct s as [r vc c fs au st].
  cbn [audio frames] in *. destruct au as [u|]; [|contradiction].
  destruct fs as [|f fs]; [split; reflexivity|].
  unfold saved, store, recording_path.
  cbn [fst snd wave_open_ok flush_ok now RECORDINGS_DIR].
  destruct cur, wave_open_ok0, flush_ok0, reason_send_ok0, saved_send_ok0,
    error_send_ok0; run_full; cbn [payloads disk_after];
    (split; [reflexivity|]); try reflexivity;
    exact (put_put _ _ _ _).
Qed.

Lemma full_stop_recording_writes cfg env out (a e : bool) (s : Bot)
    (d : Disk) :
  recording s = true -> audio s <> None ->
  payloads (trace (Full.stop_recording cfg env out a e s))
  = match saved (env, out) (frames s) with
    | Some (Complete p) => [p]
    | _ => []
    end
  /\ disk_after (trace (Full.stop_recording cfg env out a e s)) d
     = store (recording_path cfg env) (saved (env, out) (frames s)) d.
Proof.
  intros R A.
  destruct (full_stop_recording_ends_in_cleanup cfg env out a e s R) as [_ T].
  rewrite T, payloads_app, disk_after_app.
  destruct (@full_save_recording_writes cfg env out a e
              (current_recording_channel s) (set_recording false s) d A)
    as [P D].
  rewrite P, D.
  destruct (full_cleanup_writes_nothing out (set_recording false s)
              (store (recording_path cfg env)
                 (saved (env, out) (frames (set_recording false s))) d))
    as [P2 D2].
  rewrite P2, D2, app_nil_r. split; reflexivity.
Qed.

Lemma full_stop_recording_on_empty_buffer cfg env out (a e : bool) (s : Bot)
    (d : Disk) :
  recording s = true -> frames s = [] ->
  payloads (trace (Full.stop_recording cfg env out a e s)) = []
  /\ disk_after (trace (Full.stop_recording cfg env out a e s)) d = d
  /\ sent (trace (Full.stop_recording cfg env out a e s)) = [].
Proof.
  intros R E. split_env env. split_out out. destruct s as [r vc c fs au st].
  cbn [recording frames] in *. subst.
  destruct vc, au, st, stop_stream_ok0, stream_close_ok0, terminate_ok0,
    disconnect_ok0; repeat split.
Qed.

Lemma full_record_loop_iteration_reads cfg env out d s :
  recording s = true -> stream s <> None -> read_data env = Some d ->
  Full.record_loop_iteration cfg env out s
  = (Returned true, set_frames (frames s ++ [d]) s,
     [Did (StreamRead (CHUNK cfg))]).
Proof.
  intros R S D. split_env env. destruct s as [r vc cur fs au [t|]];
    cbn [recording stream read_data] in *; [|contradiction].
  subst. reflexivity.
Qed.

Lemma full_record_loop_iteration_fails cfg env out s :
  recording s = true -> stream s <> None -> read_data env = None ->
  outcome (Full.record_loop_iteration cfg env out s) <> Returned true
  /\ final (Full.record_loop_iteration cfg env out s)
     = final (Full.stop_recording cfg env out false true s)
  /\ trace (Full.record_loop_iteration cfg env out s)
     = Threw (StreamRead (CHUNK cfg))
       :: Did (Log Error "Error in recording loop: ")
       :: trace (Full.stop_recording cfg env out false true s).
Proof.
  intros R S D.
  unfold Full.record_loop_iteration, try_except.
  rewrite bind_gets, R, bind_gets.
  destruct (stream s) as [t|]; [|contradiction]. rewrite D.
  unfold bind at 1, emit, raise. cbn [fst snd app].
  unfold bind, did, emit, ret, outcome, final, trace.
  destruct (Full.stop_recording cfg env out false true s) as [[[u|] s1] t1];
    cbn [fst snd app]; rewrite ?app_nil_r; repeat split; discriminate.
Qed.

Lemma full_stop_recording_reading cfg env out d (a e : bool) (s : Bot) :
  Full.stop_recording cfg (reading env d) out a e s
  = Full.stop_recording cfg env out a e s.
Proof. split_env env. reflexivity. Qed.

Lemma full_record_loop_until_failure cfg env out (later : list Frame) s :
  recording s = true -> stream s <> None ->
  exists pre,
    trace (Full.record_loop cfg
             (map (fun f => (reading env (Some f), out)) later
              ++ [(reading env None, out)]) s)
    = pre ++ trace (Full.stop_recording cfg env out false true
                      (set_frames (frames s ++ later) s))
    /\ payloads pre = [] /\ (forall d, disk_after pre d = d)
    /\ told pre = [].
Proof.
  revert s. induction later as [|f later IH]; intros s R S;
    cbn [map app Full.record_loop fst snd].
  - rewrite app_nil_r.
    replace (set_frames (frames s) s) with s by (destruct s; reflexivity).
    destruct (@full_record_loop_iteration_fails cfg (reading env None) out s
                R S eq_refl) as (O & F & T).
    rewrite full_stop_recording_reading in T.
    exists [Threw (StreamRead (CHUNK cfg));
            Did (Log Error "Error in recording loop: ")].
    split; [|repeat split].
    unfold bind, ret, trace, outcome in *.
    destruct (Full.record_loop_iteration cfg (reading env None) out s)
      as [[[[|]|] s1] t1]; cbn [fst snd] in *;
      rewrite ?app_nil_r; exact T.
  - unfold bind at 1.
    rewrite (@full_record_loop_iteration_reads cfg (reading env (Some f)) out
               f s R S eq_refl).
    destruct (IH (set_frames (frames s ++ [f]) s) R S)
      as (pre & T & P & D & L).
    destruct (Full.record_loop cfg _ (set_frames (frames s ++ [f]) s))
      as [[r2 s2] t2].
    unfold trace in *. cbn [snd] in *.
    exists (Did (StreamRead (CHUNK cfg)) :: pre).
    split; [|repeat split; assumption].
    rewrite T. cbn [frames set_frames app]. rewrite <- app_assoc.
    destruct s; reflexivity.
Qed.

(** A session with a frame, and the write of the frames raises: no
    payload is written; the file that [wave.open] created is there,
    broken. *)
Lemma stop_whose_write_raises :
  let s := session_of lobby [frame_a] in
  let t := trace (Full.stop_recording sample_cfg no_write all_return true
                    false s) in
  recording s = true
  /\ frames s <> []
  /\ payloads t = []
  /\ disk_after t [] = [(recording_path sample_cfg no_write, Broken)].
Proof.
  cbv zeta. split; [reflexivity|]. split; [discriminate|].
  split; reflexivity.
Qed.

(** C6 (as the code has it). A stop on a recording bot with an empty
    buffer opens and writes no file, whatever the outside does.  With
    frames in the buffer, the audio handle there, and the file opened and
    written without an exception, it writes one file, at the path of the
    recording, whose payload is the concatenation of the frames in buffer
    order.  The buffer order is the order of reading: when the loop reads
    the frames [later] and then the device fails, the stop that follows
    writes one file with the frames held before followed by [later]. *)
Theorem stop_writes_the_buffer cfg env out (a e : bool) s
    (later : list Frame) :
  recording s = true -> stream s <> None -> audio s <> None ->
  wave_open_ok out = true -> flush_ok env = true ->
  let stopped := trace (Full.stop_recording cfg env out a e s) in
  let failed :=
    trace (Full.record_loop cfg
             (map (fun f => (reading env (Some f), out)) later
              ++ [(reading env None, out)]) s) in
  (forall env' out' d,
     frames s = [] ->
     payloads (trace (Full.stop_recording cfg env' out' a e s)) = []
     /\ disk_after (trace (Full.stop_recording cfg env' out' a e s)) d = d)
  /\ (frames s <> [] ->
      payloads stopped = [List.concat (frames s)]
      /\ disk_after stopped []
         = [(recording_path cfg env, Complete (List.concat (frames s)))])
  /\ (frames s ++ later <> [] ->
      payloads failed = [List.concat (frames s ++ later)]
      /\ disk_after failed []
         = [(recording_path cfg env,
             Complete (List.concat (frames s ++ later)))]).
Proof.
  intros R S A W F. cbv zeta. split; [|split].
  - intros env' out' d E.
    destruct (@full_stop_recording_on_empty_buffer cfg env' out' a e s d R E)
      as (P & D & _).
    split; assumption.
  - intros N.
    destruct (@full_stop_recording_writes cfg env out a e s [] R A) as [P D].
    rewrite P, D. unfold saved, store. cbn [fst snd]. rewrite W, F.
    destruct (frames s); [contradiction|]. split; reflexivity.
  - intros N.
    destruct (@full_record_loop_until_failure cfg env out later s R S)
      as (pre & T & P & D & _).
    destruct (@full_stop_recording_writes cfg env out false true
                (set_frames (frames s ++ later) s) [] R A) as [P2 D2].
    cbn [frames set_frames] in P2, D2.
    rewrite T, payloads_app, disk_after_app, P, D, P2, D2.
    unfold saved, store. cbn [fst snd]. rewrite W, F.
    destruct (frames s ++ later); [contradiction|]. split; reflexivity.
Qed.

(** Two frames of two and four bytes buffered, one more of one byte
    read, then the device fails: one file with the seven bytes in
    order. *)
Lemma stop_writes_the_buffer_witness :
  payloads (trace (Full.stop_recording sample_cfg all_ok all_return true
                     false (session_of lobby [frame_a; frame_c])))
  = [[x01; x02; x04; x05; x06; x07]]
  /\ payloads (trace (Full.record_loop sample_cfg
                        [(reading all_ok (Some frame_b), all_return);
                         (reading all_ok None, all_return)]
                        (session_of lobby [frame_a; frame_c])))
     = [[x01; x02; x04; x05; x06; x07; x03]].
Proof.
  pose proof (@stop_writes_the_buffer sample_cfg all_ok all_return true false
                (session_of lobby [frame_a; frame_c]) [frame_b] eq_refl)
    as H.
  assert (S : stream (session_of lobby [frame_a; frame_c]) <> None)
    by discriminate.
  assert (A : audio (session_of lobby [frame_a; frame_c]) <> None)
    by discriminate.
  destruct (H S A eq_refl eq_refl) as (_ & H1 & H2).
  split.
  - apply H1. discriminate.
  - apply H2. discriminate.
Defined.

(** ** A stop with nothing buffered *)

(** C8 (the code at the failing input). The first stop of a session
    whose buffer is empty, whatever the reason (quorum lost, error,
    manual), whatever the outside does: the flag was on, and yet no
    message at all is sent to the recorded channel, nor is one tried; the
    notices for the reason stand inside [if self.frames:]. *)
Theorem stop_on_empty_buffer_tells_nobody cfg env out (a e : bool)
    (c : Channel) :
  let x := Full.stop_recording cfg env out a e (session_of c []) in
  recording (session_of c []) = true
  /\ recording (final x) = false
  /\ sent (trace x) = []
  /\ told (trace x) = []
  /\ forall text, ~ In (Did (ChannelSend c text)) (trace x).
Proof.
  cbv zeta. split_env env. split_out out.
  destruct stop_stream_ok0, stream_close_ok0, terminate_ok0, disconnect_ok0;
    (split; [reflexivity|]); (split; [reflexivity|]);
    (split; [reflexivity|]); (split; [reflexivity|]);
    intros text H; run_full; cbn [In] in H;
    repeat (destruct H as [H|H]; [discriminate H|]); exact H.
Qed.

(** ** Shutting down *)

(** C9 (the code at the failing input). A session is being recorded and
    the process is shut down.  The code that runs then, in [main.py],
    logs two lines: the bot still records, nothing is released and no
    stop is scheduled.  [cog_unload], which nothing calls, would itself
    only schedule the stop: the bot still records when it returns. *)
Theorem shutdown_stops_nothing cfg (c : Channel) (fs : list Frame) :
  main_shutdown (session_of c fs)
  = (Returned tt, session_of c fs,
     [Did (Log Info "Bot shutting down...");
      Did (Log Info "Bot stopped by user")])
  /\ tasks_created (trace (main_shutdown (session_of c fs))) = []
  /\ cog_unload (session_of c fs)
     = (Returned tt, session_of c fs,
        [Did (CreateTask (StopRecording false false))])
  /\ fst (Full.run cfg [Full.Unload] (session_of c fs)) = session_of c fs
  /\ recording (fst (Full.run cfg [Full.Unload] (session_of c fs))) = true.
Proof. repeat split. Qed.

(** ** Two starts at once *)

Lemma full_start_recording_when_recording cfg env out (c : Channel) s :
  recording s = true ->
  Full.start_recording cfg env out c s = (Returned tt, s, []).
Proof.
  intros R. unfold Full.start_recording, Full.start_recording_guard.
  unfold bind at 1. rewrite bind_gets, R. reflexivity.
Qed.

(** C1 (the code at the failing input). Two start requests, for any two
    channels, the second handled while the first waits for its
    connection: both find the flag off.  With the outside calls of the
    first going through: when those of the second go through too, both
    connect and open a device and a stream; two connections are open at
    the end and none was closed, and the bot holds the session of the
    second request only, the handles of the first overwritten.  When the
    connection of the second raises, its cleanup releases the session of
    the first, whose record loop was scheduled, and the bot ends idle.
    Handled one after the other, the second request would have been
    ignored. *)
Theorem interleaved_starts_open_two_sessions cfg (w1 w2 : World)
    (c1 c2 : Channel) :
  start_ok (fst w1) = true ->
  let x := Full.two_starts_interleaved cfg w1 w2 c1 c2 init_bot in
  (start_ok (fst w2) = true ->
   final x = session_of c2 []
   /\ sessions_opened (trace x) = 2%nat
   /\ sessions_closed (trace x) = 0%nat
   /\ (forall k, live_after k 0 (trace x) = 2%Z)
   /\ (forall k, at_most_one k 0 (trace x) = false)
   /\ tasks_created (trace x) = [RecordLoop; RecordLoop])
  /\ (connect_ok (fst w2) = false ->
      releases_return (snd w2) (session_of c1 []) = true ->
      final x = init_bot
      /\ sessions_opened (trace x) = 1%nat
      /\ sessions_closed (trace x) = 1%nat
      /\ tasks_created (trace x) = [RecordLoop])
  /\ (Full.start_recording cfg (fst w1) (snd w1) c1 ;;
      Full.start_recording cfg (fst w2) (snd w2) c2) init_bot
     = Full.start_recording cfg (fst w1) (snd w1) c1 init_bot.
Proof.
  intros O1. cbv zeta. destruct w1 as [e1 o1], w2 as [e2 o2].
  cbn [fst snd] in *. split_env e1.
  destruct e2 as [co2 py2 op2 an2 rd2 now2 fl2 rs2 ss2 es2 cx2].
  unfold start_ok in *. cbn [connect_ok pyaudio_ok open_ok] in *.
  destruct connect_ok0, pyaudio_ok0, open_ok0; try discriminate O1.
  split; [|split].
  - intros O2. destruct co2, py2, op2; try discriminate O2.
    destruct announce_ok0, an2;
      (split; [reflexivity|]); (split; [reflexivity|]);
      (split; [reflexivity|]); (split; [intros []; reflexivity|]);
      (split; [intros []; reflexivity|]); reflexivity.
  - intros C2 R2. subst co2. destruct o2 as [wo2 sp2 sc2 te2 di2].
    unfold releases_return in R2.
    cbn [session_of stream audio voice_client stop_stream_ok stream_close_ok
         terminate_ok disconnect_ok] in R2.
    destruct sp2, sc2, te2, di2; try discriminate R2.
    destruct announce_ok0; repeat split.
  - destruct announce_ok0; reflexivity.
Qed.

Lemma interleaved_starts_open_two_sessions_witness :
  sessions_opened
    (trace (Full.two_starts_interleaved sample_cfg ok ok (lounge 3) lobby
              init_bot))
  = 2%nat
  /\ final (Full.two_starts_interleaved sample_cfg ok (all_fail, all_return)
              (lounge 3) lobby init_bot)
     = init_bot.
Proof.
  pose proof (@interleaved_starts_open_two_sessions sample_cfg ok ok
                (lounge 3) lobby eq_refl) as H.
  pose proof (@interleaved_starts_open_two_sessions sample_cfg ok
                (all_fail, all_return) (lounge 3) lobby eq_refl) as K.
  cbv zeta in H, K.
  split; [exact (proj1 (proj2 (proj1 H eq_refl)))
         | exact (proj1 (proj1 (proj2 K) eq_refl eq_refl))].
Defined.

(** ** The quorum sequence 1, 2, 3, 2, 4, 1 *)

Lemma string_length_append (a b : string) :
  String.length (a ++ b) = (String.length a + String.length b)%nat.
Proof. induction a as [|c a IH]; cbn; [reflexivity | rewrite IH; reflexivity]. Qed.

Lemma string_append_cancel_r (a b s : string) :
  (a ++ s = b ++ s)%string -> a = b.
Proof.
  revert b. induction a as [|c a IH]; intros [|c' b] H; cbn in H.
  - reflexivity.
  - apply (f_equal String.length) in H. cbn in H.
    rewrite string_length_append in H. lia.
  - apply (f_equal String.length) in H. cbn in H.
    rewrite string_length_append in H. lia.
  - injection H as C H. subst. rewrite (IH b H). reflexivity.
Qed.

Lemma recording_path_differs cfg (env env' : Env) :
  now env <> now env' ->
  path_eqb (recording_path cfg env) (recording_path cfg env') = false.
Proof.
  intros N. unfold path_eqb, recording_path. cbn [fst snd].
  rewrite String.eqb_refl. cbn [andb]. apply String.eqb_neq. intros E.
  apply string_append_cancel_r in E. cbn in E. injection E as E.
  exact (N E).
Qed.

Lemma recording_path_same cfg (env env' : Env) :
  now env = now env' -> recording_path cfg env' = recording_path cfg env.
Proof. intros E. unfold recording_path. rewrite E. reflexivity. Qed.

Lemma full_run_app cfg (es1 es2 : list Full.Event) s :
  Full.run cfg (es1 ++ es2) s
  = (fst (Full.run cfg es2 (fst (Full.run cfg es1 s))),
     snd (Full.run cfg es1 s)
     ++ snd (Full.run cfg es2 (fst (Full.run cfg es1 s)))).
Proof.
  revert s. induction es1 as [|e es1 IH]; intros s;
    cbn [app Full.run fst snd].
  - destruct (Full.run cfg es2 s). reflexivity.
  - destruct (Full.handle cfg e s) as [[r s1] t1]. rewrite IH.
    destruct (Full.run cfg es1 s1) as [s2 t2]. cbn [fst snd].
    rewrite app_assoc. reflexivity.
Qed.

Lemma full_run_cons cfg (e : Full.Event) es s :
  Full.run cfg (e :: es) s
  = (fst (Full.run cfg es (final (Full.handle cfg e s))),
     trace (Full.handle cfg e s)
     ++ snd (Full.run cfg es (final (Full.handle cfg e s)))).
Proof.
  cbn [Full.run]. unfold final, trace.
  destruct (Full.handle cfg e s) as [[r s1] t1]. cbn [fst snd].
  destruct (Full.run cfg es s1). reflexivity.
Qed.

Lemma full_read_turn cfg (w : World) (f : Frame) s :
  recording s = true -> stream s <> None ->
  Full.handle cfg (Full.TaskTurn (reading (fst w) (Some f), snd w) RecordLoop) s
  = (Returned tt, set_frames (frames s ++ [f]) s,
     [Did (StreamRead (CHUNK cfg))]).
Proof.
  intros R S. cbn [Full.handle Full.run_task fst snd]. unfold bind.
  rewrite (@full_record_loop_iteration_reads cfg
             (reading (fst w) (Some f)) (snd w) f s R S eq_refl).
  reflexivity.
Qed.

Lemma full_run_reads cfg (w : World) (fs : list Frame) s :
  recording s = true -> stream s <> None ->
  Full.run cfg (reads w fs) s
  = (set_frames (frames s ++ fs) s,
     map (fun _ => Did (StreamRead (CHUNK cfg))) fs).
Proof.
  revert s. induction fs as [|f fs IH]; intros s R S.
  - cbn [reads map Full.run]. rewrite app_nil_r. destruct s; reflexivity.
  - unfold reads. cbn [map]. rewrite full_run_cons. fold (reads w fs).
    rewrite (full_read_turn cfg w f s R S).
    unfold final, trace. cbn [fst snd].
    rewrite (IH (set_frames (frames s ++ [f]) s) R S).
    destruct s. cbn [fst snd frames set_frames app].
    rewrite <- app_assoc. reflexivity.
Qed.

Lemma run_issues_reads cfg (w : World) (fs : list Frame)
    (es : list Full.Event) s (its : list Intent) :
  run_issues cfg es (fst (Full.run cfg (reads w fs) s)) its ->
  run_issues cfg (reads w fs ++ es) s its.
Proof.
  revert s. induction fs as [|f fs IH]; intros s H; [exact H|].
  unfold reads in *. cbn [map app run_issues]. cbn [map] in H.
  fold (reads w fs) in *.
  apply IH. rewrite full_run_cons in H. exact H.
Qed.

Lemma full_check_channel_when_idle cfg env out (c : Channel) s :
  recording s = false ->
  Full.check_channel cfg env out c s
  = if (3 <=? member_count c)%nat then Full.start_recording cfg env out c s
    else (Returned tt, s, []).
Proof.
  intros R. unfold Full.check_channel. rewrite !bind_gets, R.
  cbn [negb]. rewrite andb_true_r, andb_false_r.
  destruct (3 <=? member_count c)%nat; reflexivity.
Qed.

Lemma full_check_channel_stops cfg env out (a a' : Channel)
    (fs : list Frame) :
  chan_id a' = chan_id a -> (member_count a' < 3)%nat ->
  Full.check_channel cfg env out a' (session_of a fs)
  = Full.stop_recording cfg env out true false (session_of a fs).
Proof.
  intros E H. unfold Full.check_channel. rewrite !bind_gets.
  cbn [recording current_recording_channel session_of py_eq negb].
  unfold channel_eqb. rewrite E, Nat.eqb_refl.
  pose proof H as H'. apply Nat.ltb_lt in H'. rewrite H'.
  rewrite andb_false_r. reflexivity.
Qed.

Lemma full_start_recording_from_idle cfg env out (c : Channel) :
  start_ok env = true ->
  let x := Full.start_recording cfg env out c init_bot in
  final x = session_of c []
  /\ sessions_opened (trace x) = 1%nat
  /\ sessions_closed (trace x) = 0%nat
  /\ payloads (trace x) = []
  /\ forall d, disk_after (trace x) d = d.
Proof.
  intros O. cbv zeta. split_env env.
  unfold start_ok in O. cbn [connect_ok pyaudio_ok open_ok] in O.
  destruct connect_ok0, pyaudio_ok0, open_ok0; try discriminate O.
  destruct announce_ok0; repeat split.
Qed.

Lemma full_stop_recording_of_session cfg env out (a e : bool) (c : Channel)
    (fs : list Frame) :
  releases_return out (session_of c fs) = true ->
  let x := Full.stop_recording cfg env out a e (session_of c fs) in
  final x = init_bot
  /\ sessions_opened (trace x) = 0%nat
  /\ sessions_closed (trace x) = 1%nat
  /\ payloads (trace x) = completed (saved (env, out) fs)
  /\ forall d, disk_after (trace x) d
               = store (recording_path cfg env) (saved (env, out) fs) d.
Proof.
  intros H. cbv zeta.
  assert (A : audio (session_of c fs) <> None) by discriminate.
  split; [|split; [|split; [|split]]];
    [| | | exact (proj1 (@full_stop_recording_writes cfg env out a e
                            (session_of c fs) [] eq_refl A)) |].
  - destruct (@full_stop_recording_ends_in_cleanup cfg env out a e
                (session_of c fs) eq_refl) as [F _].
    rewrite F.
    rewrite (full_cleanup_when_releases_return out
               (set_recording false (session_of c fs)) H).
    reflexivity.
  - split_env env. split_out out. destruct fs as [|f fs]; unfold releases_return in H;
      cbn [session_of stream audio voice_client stop_stream_ok stream_close_ok
           terminate_ok disconnect_ok] in H;
      destruct stop_stream_ok0, stream_close_ok0, terminate_ok0,
        disconnect_ok0; try discriminate H; [reflexivity|].
    destruct wave_open_ok0, flush_ok0, reason_send_ok0, saved_send_ok0,
      error_send_ok0; reflexivity.
  - split_env env. split_out out. destruct fs as [|f fs]; unfold releases_return in H;
      cbn [session_of stream audio voice_client stop_stream_ok stream_close_ok
           terminate_ok disconnect_ok] in H;
      destruct stop_stream_ok0, stream_close_ok0, terminate_ok0,
        disconnect_ok0; try discriminate H; [reflexivity|].
    destruct wave_open_ok0, flush_ok0, reason_send_ok0, saved_send_ok0,
      error_send_ok0; reflexivity.
  - intros d.
    exact (proj2 (@full_stop_recording_writes cfg env out a e
                    (session_of c fs) d eq_refl A)).
Qed.

(** One session run from start to stop: the change that reaches the
    quorum, the reads of [fs], the change that loses it. *)
Lemma full_run_one_session cfg (w_in w_out : World) (c_in c_out : Channel)
    (fs : list Frame) (rest : list Full.Event) :
  (3 <= member_count c_in)%nat -> (member_count c_out < 3)%nat ->
  chan_id c_out = chan_id c_in ->
  start_ok (fst w_in) = true ->
  releases_return (snd w_out) (session_of c_in fs) = true ->
  let es := Full.MembershipChange w_in c_in
            :: reads w_in fs ++ Full.MembershipChange w_out c_out :: rest in
  let x := Full.run cfg es init_bot in
  let y := Full.run cfg rest init_bot in
  fst x = fst y
  /\ sessions_opened (snd x) = S (sessions_opened (snd y))
  /\ sessions_closed (snd x) = S (sessions_closed (snd y))
  /\ payloads (snd x) = completed (saved w_out fs) ++ payloads (snd y)
  /\ (forall d,
        disk_after (snd x) d
        = disk_after (snd y)
            (store (recording_path cfg (fst w_out)) (saved w_out fs) d))
  /\ forall its,
       run_issues cfg rest init_bot its ->
       run_issues cfg es init_bot
         (StartOf c_in :: StopQuorumLost c_out :: its).
Proof.
  intros Hin Hout E O Rl. cbv zeta.
  assert (CI : Full.check_channel cfg (fst w_in) (snd w_in) c_in init_bot
               = Full.start_recording cfg (fst w_in) (snd w_in) c_in init_bot).
  { rewrite full_check_channel_when_idle by reflexivity.
    pose proof Hin as H'. apply Nat.leb_le in H'. rewrite H'. reflexivity. }
  pose proof (@full_check_channel_stops cfg (fst w_out) (snd w_out) c_in c_out
                fs E Hout) as CO.
  destruct (@full_start_recording_from_idle cfg (fst w_in) (snd w_in) c_in O)
    as (SF & SO & SC & SP & SD).
  destruct (@full_stop_recording_of_session cfg (fst w_out) (snd w_out) true
              false c_in fs Rl) as (TF & TO & TC & TP & TD).
  replace (fst w_out, snd w_out) with w_out in * by (destruct w_out; reflexivity).
  assert (RD : Full.run cfg (reads w_in fs) (session_of c_in [])
               = (session_of c_in fs,
                  map (fun _ => Did (StreamRead (CHUNK cfg))) fs)).
  { rewrite full_run_reads; [reflexivity | reflexivity | discriminate]. }
  assert (RO : forall fs' : list Frame,
             sessions_opened
               (map (fun _ => Did (StreamRead (CHUNK cfg))) fs') = 0%nat
             /\ sessions_closed
                  (map (fun _ => Did (StreamRead (CHUNK cfg))) fs') = 0%nat
             /\ payloads
                  (map (fun _ => Did (StreamRead (CHUNK cfg))) fs') = []
             /\ forall d, disk_after
                  (map (fun _ => Did (StreamRead (CHUNK cfg))) fs') d = d).
  { induction fs' as [|f fs' IH]; [repeat split|].
    destruct IH as (I1 & I2 & I3 & I4). repeat split; cbn [map];
      [exact I1 | exact I2 | exact I3 | intros d; cbn [disk_after]; apply I4]. }
  destruct (RO fs) as (R1 & R2 & RP & R3).
  rewrite full_run_cons. cbn [Full.handle]. rewrite CI, SF.
  rewrite full_run_app, RD. cbn [fst snd].
  rewrite full_run_cons. cbn [Full.handle]. rewrite CO, TF.
  cbn [fst snd].
  split; [reflexivity|]. split; [|split; [|split; [|split]]].
  - rewrite !sessions_opened_app, SO, R1, TO. reflexivity.
  - rewrite !sessions_closed_app, SC, R2, TC. reflexivity.
  - rewrite !payloads_app, SP, RP, TP. reflexivity.
  - intros d. rewrite !disk_after_app, SD, R3, TD. reflexivity.
  - intros its H. cbn [run_issues].
    split; [split; [reflexivity | split; [reflexivity | exact CI]]|].
    cbn [Full.handle]. rewrite CI, SF.
    apply run_issues_reads. rewrite RD. cbn [fst run_issues].
    split; [split; [reflexivity | split; [reflexivity | exact CO]]|].
    cbn [Full.handle]. rewrite CO, TF. exact H.
Qed.

Lemma full_run_below_quorum cfg (w : World) (c : Channel)
    (rest : list Full.Event) :
  (member_count c < 3)%nat ->
  Full.run cfg (Full.MembershipChange w c :: rest) init_bot
  = Full.run cfg rest init_bot
  /\ forall its,
       run_issues cfg rest init_bot its ->
       run_issues cfg (Full.MembershipChange w c :: rest) init_bot
         (NoIntent :: its).
Proof.
  intros H.
  assert (C : Full.check_channel cfg (fst w) (snd w) c init_bot
              = (Returned tt, init_bot, [])).
  { rewrite full_check_channel_when_idle by reflexivity.
    apply Nat.leb_gt in H. rewrite H. reflexivity. }
  split.
  - rewrite full_run_cons. cbn [Full.handle]. rewrite C.
    cbn [final trace fst snd app]. destruct (Full.run cfg rest init_bot).
    reflexivity.
  - intros its K. cbn [run_issues Full.handle]. split; [exact C|].
    rewrite C. exact K.
Qed.

Lemma full_start_recording_calls cfg env out (c : Channel) s :
  recording s = false ->
  trace (Full.start_recording cfg env out c s) <> [].
Proof.
  intros R. split_env env. split_out out.
  destruct s as [r vc cur fs au st]. cbn [recording] in R. subst r.
  destruct connect_ok0;
    [destruct pyaudio_ok0;
     [destruct open_ok0; [destruct announce_ok0; discriminate|]|]|];
    destruct vc, au, st, stop_stream_ok0, stream_close_ok0, terminate_ok0,
      disconnect_ok0; discriminate.
Qed.

(** A membership change issues one intent only. *)
Lemma issues_one_intent cfg (w : World) (c : Channel) s (i j : Intent) :
  issues cfg w c s i -> issues cfg w c s j -> i = j.
Proof.
  assert (S : forall c',
             issues cfg w c s (StartOf c') -> ~ issues cfg w c s NoIntent).
  { intros c' (_ & R & E) N. cbn [issues] in N. rewrite E in N.
    apply (@full_start_recording_calls cfg (fst w) (snd w) c s R).
    rewrite N. reflexivity. }
  assert (T : forall c',
             issues cfg w c s (StopQuorumLost c')
             -> ~ issues cfg w c s NoIntent).
  { intros c' (_ & R & E) N. cbn [issues] in N. rewrite E in N.
    pose proof (proj1 (@stop_recording_keeps_nothing_on cfg (fst w) (snd w)
                         true false s R)) as F.
    rewrite N in F. cbn [final fst snd] in F. rewrite R in F.
    discriminate F. }
  intros Hi Hj. destruct i as [ci|ci|], j as [cj|cj|];
    try reflexivity;
    try (exfalso; exact (S _ Hi Hj)); try (exfalso; exact (S _ Hj Hi));
    try (exfalso; exact (T _ Hi Hj)); try (exfalso; exact (T _ Hj Hi)).
  - destruct Hi as (E1 & _), Hj as (E2 & _). subst. reflexivity.
  - destruct Hi as (_ & R1 & _), Hj as (_ & R2 & _). rewrite R1 in R2.
    discriminate R2.
  - destruct Hi as (_ & R1 & _), Hj as (_ & R2 & _). rewrite R1 in R2.
    discriminate R2.
  - destruct Hi as (E1 & _), Hj as (E2 & _). subst. reflexivity.
Qed.

Lemma run_issues_unique cfg (es : list Full.Event) s (its its' : list Intent) :
  run_issues cfg es s its -> run_issues cfg es s its' -> its = its'.
Proof.
  revert s its its'. induction es as [|e es IH]; intros s its its' H K;
    cbn [run_issues] in H, K.
  - subst. reflexivity.
  - destruct e; try exact (IH _ _ _ H K).
    destruct its as [|i its]; [contradiction|].
    destruct its' as [|j its']; [contradiction|].
    destruct H as [H1 H2], K as [K1 K2].
    rewrite (@issues_one_intent cfg w c s i j H1 K1), (IH _ _ _ H2 K2).
    reflexivity.
Qed.

(** The six changes with nothing read in between: the four intents are
    issued and both sessions are closed, and yet no file is on disk, and no
    write was even tried: both buffers were empty. *)
Lemma six_changes_leave_no_file :
  let x := Full.run sample_cfg six_changes init_bot in
  map (fun e => match e with
                | Full.MembershipChange _ c => member_count c
                | _ => 0%nat
                end) six_changes = [1; 2; 3; 2; 4; 1]%nat
  /\ run_issues sample_cfg six_changes init_bot
       [NoIntent; NoIntent; StartOf (lounge 3); StopQuorumLost (lounge 2);
        StartOf (lounge 4); StopQuorumLost (lounge 1)]
  /\ sessions_opened (snd x) = 2%nat
  /\ sessions_closed (snd x) = 2%nat
  /\ disk_after (snd x) [] = []
  /\ files_written (snd x) = 0%nat
  /\ filter is_wave_open (snd x) = [].
Proof.
  cbv zeta. split; [reflexivity|]. split; [|repeat split].
  unfold six_changes. cbn [map run_issues issues].
  repeat split.
Qed.

(** C5 (as the code has it). Six membership changes of one channel, with
    1, 2, 3, 2, 4 and 1 people, handled one after the other from a bot
    that is not recording; between the third and the fourth the loop
    reads the frames [fs1], between the fifth and the sixth the frames
    [fs2].  When the outside calls of both starts go through, and the
    release calls of both stops return: the changes issue nothing,
    nothing, a start, a quorum-lost stop, a start and a quorum-lost stop,
    and nothing else, read off the calls [check_channel] makes; two sessions are opened and
    two closed, and the bot ends as [__init__] left it.  The disk holds
    what the two stops saved: nothing for an empty buffer.  When both
    buffers hold frames and both files are opened and written, there are
    two complete files, each with the frames of its session joined in
    order, if the two stops fall in different seconds; if they fall in
    the same second, the one path holds the second recording only. *)
Theorem quorum_sequence_of_six cfg (w1 w2 w3 w4 w5 w6 : World)
    (c1 c2 c3 c4 c5 c6 : Channel) (fs1 fs2 : list Frame) :
  map member_count [c1; c2; c3; c4; c5; c6] = [1; 2; 3; 2; 4; 1]%nat ->
  map chan_id [c2; c3; c4; c5; c6] = repeat (chan_id c1) 5 ->
  start_ok (fst w3) = true -> start_ok (fst w5) = true ->
  releases_return (snd w4) (session_of c3 fs1) = true ->
  releases_return (snd w6) (session_of c5 fs2) = true ->
  let es := [Full.MembershipChange w1 c1; Full.MembershipChange w2 c2;
             Full.MembershipChange w3 c3]
            ++ reads w3 fs1
            ++ [Full.MembershipChange w4 c4; Full.MembershipChange w5 c5]
            ++ reads w5 fs2
            ++ [Full.MembershipChange w6 c6] in
  let x := Full.run cfg es init_bot in
  let p4 := recording_path cfg (fst w4) in
  let p6 := recording_path cfg (fst w6) in
  run_issues cfg es init_bot
    [NoIntent; NoIntent; StartOf c3; StopQuorumLost c4; StartOf c5;
     StopQuorumLost c6]
  /\ (forall its,
        run_issues cfg es init_bot its ->
        its = [NoIntent; NoIntent; StartOf c3; StopQuorumLost c4; StartOf c5;
               StopQuorumLost c6])
  /\ fst x = init_bot
  /\ sessions_opened (snd x) = 2%nat
  /\ sessions_closed (snd x) = 2%nat
  /\ (forall d, disk_after (snd x) d
                = store p6 (saved w6 fs2) (store p4 (saved w4 fs1) d))
  /\ (fs1 = [] -> fs2 = [] -> forall d, disk_after (snd x) d = d)
  /\ (fs1 <> [] -> fs2 <> [] ->
      wave_open_ok (snd w4) = true -> flush_ok (fst w4) = true ->
      wave_open_ok (snd w6) = true -> flush_ok (fst w6) = true ->
      (now (fst w4) <> now (fst w6) ->
       disk_after (snd x) []
       = [(p4, Complete (List.concat fs1)); (p6, Complete (List.concat fs2))])
      /\ (now (fst w4) = now (fst w6) ->
          disk_after (snd x) [] = [(p4, Complete (List.concat fs2))])).
Proof.
  intros Hc Hi O3 O5 R4 R6. cbv zeta. cbn [app].
  cbn [map repeat] in Hc, Hi.
  injection Hc as M1 M2 M3 M4 M5 M6. injection Hi as I2 I3 I4 I5 I6.
  assert (L1 : (member_count c1 < 3)%nat) by lia.
  assert (L2 : (member_count c2 < 3)%nat) by lia.
  assert (L3 : (3 <= member_count c3)%nat) by lia.
  assert (L4 : (member_count c4 < 3)%nat) by lia.
  assert (L5 : (3 <= member_count c5)%nat) by lia.
  assert (L6 : (member_count c6 < 3)%nat) by lia.
  assert (E43 : chan_id c4 = chan_id c3) by lia.
  assert (E65 : chan_id c6 = chan_id c5) by lia.
  pose proof (@full_run_one_session cfg w5 w6 c5 c6 fs2 [] L5 L6 E65 O5 R6)
    as P2.
  pose proof (@full_run_one_session cfg w3 w4 c3 c4 fs1
                (Full.MembershipChange w5 c5
                 :: reads w5 fs2 ++ [Full.MembershipChange w6 c6])
                L3 L4 E43 O3 R4) as P1.
  cbv zeta in P1, P2.
  destruct P2 as (F2 & S2 & C2 & _ & D2 & K2).
  destruct P1 as (F1 & S1 & C1 & _ & D1 & K1).
  destruct (@full_run_below_quorum cfg w2 c2
              (Full.MembershipChange w3 c3
               :: reads w3 fs1
                  ++ Full.MembershipChange w4 c4
                     :: Full.MembershipChange w5 c5
                        :: reads w5 fs2 ++ [Full.MembershipChange w6 c6]) L2)
    as [B2 J2].
  destruct (@full_run_below_quorum cfg w1 c1
              (Full.MembershipChange w2 c2
               :: Full.MembershipChange w3 c3
               :: reads w3 fs1
                  ++ Full.MembershipChange w4 c4
                     :: Full.MembershipChange w5 c5
                        :: reads w5 fs2 ++ [Full.MembershipChange w6 c6]) L1)
    as [B1 J1].
  assert (D : forall d,
             disk_after
               (snd (Full.run cfg
                       (Full.MembershipChange w1 c1
                        :: Full.MembershipChange w2 c2
                        :: Full.MembershipChange w3 c3
                        :: reads w3 fs1
                           ++ Full.MembershipChange w4 c4
                              :: Full.MembershipChange w5 c5
                                 :: reads w5 fs2
                                    ++ [Full.MembershipChange w6 c6])
                       init_bot)) d
             = store (recording_path cfg (fst w6)) (saved w6 fs2)
                 (store (recording_path cfg (fst w4)) (saved w4 fs1) d)).
  { intros d. rewrite B1, B2, D1, D2. reflexivity. }
  assert (RI : run_issues cfg
                 (Full.MembershipChange w1 c1
                  :: Full.MembershipChange w2 c2
                  :: Full.MembershipChange w3 c3
                  :: reads w3 fs1
                     ++ Full.MembershipChange w4 c4
                        :: Full.MembershipChange w5 c5
                           :: reads w5 fs2 ++ [Full.MembershipChange w6 c6])
                 init_bot
                 [NoIntent; NoIntent; StartOf c3; StopQuorumLost c4;
                  StartOf c5; StopQuorumLost c6]).
  { apply J1, J2, K1, K2. reflexivity. }
  split; [exact RI|].
  split; [intros its H; exact (@run_issues_unique cfg _ init_bot _ _ H RI)|].
  split; [rewrite B1, B2, F1, F2; reflexivity|].
  split; [rewrite B1, B2, S1, S2; reflexivity|].
  split; [rewrite B1, B2, C1, C2; reflexivity|].
  split; [exact D|]. split.
  - intros N1 N2 d. rewrite D. subst fs1 fs2. reflexivity.
  - intros N1 N2 W4 L4' W6 L6'. rewrite D.
    destruct fs1 as [|f1 fs1]; [contradiction|].
    destruct fs2 as [|f2 fs2]; [contradiction|].
    unfold saved. rewrite W4, L4', W6, L6'. cbn [store put].
    split; intros N.
    + rewrite (@recording_path_differs cfg (fst w4) (fst w6) N). reflexivity.
    + rewrite (@recording_path_same cfg (fst w4) (fst w6) N), path_eqb_refl.
      reflexivity.
Qed.

Lemma quorum_sequence_of_six_witness :
  disk_after
    (snd (Full.run sample_cfg
            ([Full.MembershipChange ok (lounge 1);
              Full.MembershipChange ok (lounge 2);
              Full.MembershipChange ok (lounge 3)]
             ++ reads ok [frame_a; frame_c]
             ++ [Full.MembershipChange ok (lounge 2);
                 Full.MembershipChange ok (lounge 4)]
             ++ reads ok [frame_b]
             ++ [Full.MembershipChange later_ok (lounge 1)])
            init_bot)) []
  = [(recording_path sample_cfg (fst ok),
      Complete [x01; x02; x04; x05; x06; x07]);
     (recording_path sample_cfg (fst later_ok), Complete [x03])].
Proof.
  pose proof (@quorum_sequence_of_six sample_cfg ok ok ok ok ok later_ok
                (lounge 1) (lounge 2) (lounge 3) (lounge 2) (lounge 4)
                (lounge 1) [frame_a; frame_c] [frame_b]
                eq_refl eq_refl eq_refl eq_refl eq_refl eq_refl) as H.
  cbv zeta in H. destruct H as (_ & _ & _ & _ & _ & _ & _ & H).
  refine (proj1 (H _ _ eq_refl eq_refl eq_refl eq_refl) _);
    discriminate.
Defined.

(** * Further properties, with every outside call fallible *)

(** X2. A start on the initial bot in which [connect], [PyAudio()] or the
    opening of the stream raises: the flag stays off, no announcement is
    sent or tried and no record loop is scheduled.  The start ends by
    exception only when a release call of the cleanup in its [except]
    raised: the termination of the device, or the disconnection; when it
    returns, the bot is as [__init__] left it and whatever was opened
    before the failure is closed again. *)
Theorem failed_start_is_undone cfg env out (c : Channel) :
  start_ok env = false ->
  let x := Full.start_recording cfg env out c init_bot in
  recording (final x) = false
  /\ sent (trace x) = []
  /\ tasks_created (trace x) = []
  /\ (outcome x = Raised <->
      connect_ok env = true
      /\ (disconnect_ok out = false
          \/ (pyaudio_ok env = true /\ terminate_ok out = false)))
  /\ (outcome x = Returned tt ->
      final x = init_bot /\ forall k, live_after k 0 (trace x) = 0%Z).
Proof.
  intros O. cbv zeta. split_env env. split_out out.
  unfold start_ok in O. cbn [connect_ok pyaudio_ok open_ok] in O.
  cbn [connect_ok pyaudio_ok disconnect_ok terminate_ok].
  destruct connect_ok0, pyaudio_ok0, open_ok0; try discriminate O;
    destruct terminate_ok0, disconnect_ok0;
    (split; [reflexivity|]); (split; [reflexivity|]);
    (split; [reflexivity|]);
    (split;
     [split;
      [intros H;
       first [discriminate H
             |split; [reflexivity|];
              first [left; reflexivity | right; split; reflexivity]]
      |intros [A [B|[B C]]];
       first [discriminate A | discriminate B | discriminate C
             | reflexivity]]
     |intros H;
      first [discriminate H
            |split; [reflexivity | intros []; reflexivity]]]).
Qed.

Lemma failed_start_is_undone_witness :
  final (Full.start_recording sample_cfg no_device all_return lobby init_bot)
  = init_bot
  /\ outcome (Full.start_recording sample_cfg no_device stuck_stream lobby
                init_bot) = Returned tt.
Proof.
  split.
  - exact (proj1 (proj2 (proj2 (proj2 (proj2
      (@failed_start_is_undone sample_cfg no_device all_return lobby
         eq_refl)))) eq_refl)).
  - reflexivity.
Defined.

(** X6. A stop on a session returns exactly when its save block went
    through, or failed with the failure notice sent, and the release
    calls of the cleanup returned; in every other case it ends by
    exception: a save block that raised with the failure notice raising
    too, or a release that raised. *)
Theorem stop_recording_outcome cfg env out (a e : bool) (c : Channel)
    (fs : list Frame) :
  outcome (Full.stop_recording cfg env out a e (session_of c fs))
  = if (save_goes_through env out fs || error_send_ok env)
       && releases_return out (session_of c fs)
    then Returned tt else Raised.
Proof.
  split_env env. split_out out.
  unfold save_goes_through, releases_return.
  cbn [wave_open_ok flush_ok reason_send_ok saved_send_ok error_send_ok
       stop_stream_ok stream_close_ok terminate_ok disconnect_ok
       session_of stream audio voice_client].
  destruct fs as [|f fs];
    destruct stop_stream_ok0, stream_close_ok0, terminate_ok0,
      disconnect_ok0; try reflexivity;
    destruct wave_open_ok0, flush_ok0, reason_send_ok0, saved_send_ok0,
      error_send_ok0; reflexivity.
Qed.

(** X5. The read of the stream raises during a session: the loop turn
    logs the error and stops the session with [error=True].  The loop
    does not go on and the flag is off; the bot is reset when the release
    calls return.  The buffer is written when it holds frames and the
    file is opened and written; the recorded channel is then told first
    that the recording stopped due to an error, if that notice goes
    through.  With an empty buffer nothing is sent to it. *)
Theorem device_failure_stops_the_session cfg env out (c : Channel)
    (fs : list Frame) :
  read_data env = None ->
  let s := session_of c fs in
  let x := Full.record_loop_iteration cfg env out s in
  outcome x <> Returned true
  /\ recording (final x) = false
  /\ (exists rest,
        trace x = Threw (StreamRead (CHUNK cfg))
                  :: Did (Log Error "Error in recording loop: ") :: rest)
  /\ payloads (trace x) = completed (saved (env, out) fs)
  /\ (releases_return out s = true -> final x = init_bot)
  /\ (fs <> [] -> wave_open_ok out = true -> flush_ok env = true ->
      reason_send_ok env = true ->
      exists rest, told (trace x) = (c, MSG_ERROR_STOP) :: rest)
  /\ (fs = [] -> sent (trace x) = []).
Proof.
  intros D. cbv zeta.
  assert (R : recording (session_of c fs) = true) by reflexivity.
  assert (S : stream (session_of c fs) <> None) by discriminate.
  assert (A : audio (session_of c fs) <> None) by discriminate.
  destruct (@full_record_loop_iteration_fails cfg env out (session_of c fs)
              R S D) as (O & F & T).
  destruct (@stop_recording_keeps_nothing_on cfg env out false true
              (session_of c fs) R) as (SF & SR).
  split; [exact O|]. split; [rewrite F; exact SF|].
  split; [eexists; exact T|].
  split; [rewrite T; cbn [payloads];
          exact (proj1 (@full_stop_recording_writes cfg env out false true
                          (session_of c fs) [] R A))|].
  split; [intros H; rewrite F; exact (SR H)|].
  rewrite T. cbn [told sent]. clear O F T SF SR D.
  split_env env. split_out out.
  cbn [wave_open_ok flush_ok reason_send_ok].
  split.
  - intros N W L Q. subst. destruct fs as [|f fs]; [contradiction|].
    destruct saved_send_ok0, error_send_ok0, stop_stream_ok0,
      stream_close_ok0, terminate_ok0, disconnect_ok0; eexists; reflexivity.
  - intros N. subst.
    destruct stop_stream_ok0, stream_close_ok0, terminate_ok0,
      disconnect_ok0; reflexivity.
Qed.

Lemma device_failure_stops_the_session_witness :
  payloads
    (trace (Full.record_loop_iteration sample_cfg (reading all_ok None)
              stuck_stream (session_of lobby [frame_a; frame_c])))
  = [[x01; x02; x04; x05; x06; x07]].
Proof.
  exact (proj1 (proj2 (proj2 (proj2
    (@device_failure_stops_the_session sample_cfg (reading all_ok None)
       stuck_stream lobby [frame_a; frame_c] eq_refl))))).
Defined.

(** X14. Two sessions one after the other, on the same channel or not,
    each started at quorum, fed by the record loop and stopped below
    quorum, the starts going through and the releases returning: the
    payloads written are, in order, the frames of the first session and
    the frames of the second, a session contributing its payload only
    when it buffered frames and its file was opened and written.  The
    second payload holds nothing of the first session. *)
Theorem sessions_do_not_mix cfg (w1 w2 w3 w4 : World)
    (a a' b b' : Channel) (fs1 fs2 : list Frame) :
  (3 <= member_count a)%nat -> (member_count a' < 3)%nat ->
  chan_id a' = chan_id a ->
  (3 <= member_count b)%nat -> (member_count b' < 3)%nat ->
  chan_id b' = chan_id b ->
  start_ok (fst w1) = true -> start_ok (fst w3) = true ->
  releases_return (snd w2) (session_of a fs1) = true ->
  releases_return (snd w4) (session_of b fs2) = true ->
  let es := Full.MembershipChange w1 a
            :: reads w1 fs1
               ++ Full.MembershipChange w2 a'
                  :: Full.MembershipChange w3 b
                     :: reads w3 fs2 ++ [Full.MembershipChange w4 b'] in
  let x := Full.run cfg es init_bot in
  fst x = init_bot
  /\ payloads (snd x)
     = completed (saved w2 fs1) ++ completed (saved w4 fs2)
  /\ (fs1 <> [] -> fs2 <> [] ->
      wave_open_ok (snd w2) = true -> flush_ok (fst w2) = true ->
      wave_open_ok (snd w4) = true -> flush_ok (fst w4) = true ->
      payloads (snd x) = [List.concat fs1; List.concat fs2])
  /\ (fs1 = [] -> payloads (snd x) = completed (saved w4 fs2)).
Proof.
  intros A1 A2 A3 B1 B2 B3 O1 O3 R2 R4. cbv zeta.
  pose proof (@full_run_one_session cfg w3 w4 b b' fs2 [] B1 B2 B3 O3 R4)
    as P2.
  pose proof (@full_run_one_session cfg w1 w2 a a' fs1
                (Full.MembershipChange w3 b
                 :: reads w3 fs2 ++ [Full.MembershipChange w4 b'])
                A1 A2 A3 O1 R2) as P1.
  cbv zeta in P1, P2.
  destruct P2 as (F2 & _ & _ & Y2 & _).
  destruct P1 as (F1 & _ & _ & Y1 & _).
  assert (Y : payloads
                (snd (Full.run cfg
                        (Full.MembershipChange w1 a
                         :: reads w1 fs1
                            ++ Full.MembershipChange w2 a'
                               :: Full.MembershipChange w3 b
                                  :: reads w3 fs2
                                     ++ [Full.MembershipChange w4 b'])
                        init_bot))
              = completed (saved w2 fs1) ++ completed (saved w4 fs2)).
  { rewrite Y1, Y2. cbn [Full.run snd payloads]. rewrite app_nil_r.
    reflexivity. }
  split; [rewrite F1, F2; reflexivity|]. split; [exact Y|]. split.
  - intros N1 N2 W2 L2 W4 L4. rewrite Y.
    destruct fs1 as [|f1 fs1]; [contradiction|].
    destruct fs2 as [|f2 fs2]; [contradiction|].
    unfold saved. rewrite W2, L2, W4, L4. reflexivity.
  - intros N1. rewrite Y. subst fs1. reflexivity.
Qed.

Lemma sessions_do_not_mix_witness :
  payloads
    (snd (Full.run sample_cfg
            (Full.MembershipChange ok (lounge 3)
             :: reads ok [frame_a; frame_c]
                ++ Full.MembershipChange ok (lounge 2)
                   :: Full.MembershipChange ok lobby
                      :: reads ok [frame_b]
                         ++ [Full.MembershipChange later_ok
                               {| chan_id := 8; members := [human] |}])
            init_bot))
  = [[x01; x02; x04; x05; x06; x07]; [x03]].
Proof.
  pose proof (@sessions_do_not_mix sample_cfg ok ok ok later_ok
                (lounge 3) (lounge 2) lobby
                {| chan_id := 8; members := [human] |}
                [frame_a; frame_c] [frame_b]) as H.
  cbv zeta in H.
  refine (proj1 (proj2 (proj2 (H _ _ eq_refl _ _ eq_refl eq_refl eq_refl
                                 eq_refl eq_refl)))
            _ _ eq_refl eq_refl eq_refl eq_refl);
    first [discriminate | cbv; lia].
Defined.

(** ** The flag and the handles *)

Lemma final_bind {A B} (m : M A) (k : A -> M B) (s : Bot) :
  final (bind m k s)
  = match outcome (m s) with
    | Returned a => final (k a (final (m s)))
    | Raised => final (m s)
    end.
Proof.
  unfold bind, final, outcome. destruct (m s) as [[[a|] s1] t1];
    cbn [fst snd]; [|reflexivity].
  destruct (k a s1) as [[r s2] t2]. reflexivity.
Qed.

Lemma whole_when_idle (s : Bot) : recording s = false -> whole s.
Proof. intros R H. rewrite R in H. discriminate H. Qed.

Lemma whole_session (c : Channel) (fs : list Frame) : whole (session_of c fs).
Proof. intros _. exists c, fs. reflexivity. Qed.

Lemma whole_ret {A} (a : A) : keeps_whole (ret a).
Proof. intros s H. exact H. Qed.

Lemma whole_bind {A B} (m : M A) (k : A -> M B) :
  keeps_whole m -> (forall a, keeps_whole (k a)) -> keeps_whole (bind m k).
Proof.
  intros Hm Hk s H. rewrite final_bind.
  destruct (outcome (m s)) as [a|]; [apply Hk|]; apply Hm, H.
Qed.

Lemma whole_call (c : Call) (ok : bool) : keeps_whole (call c ok).
Proof. intros s H. destruct ok; exact H. Qed.

Lemma whole_stop_recording cfg env out (a e : bool) :
  keeps_whole (Full.stop_recording cfg env out a e).
Proof.
  intros s H. destruct (recording s) eqn:R.
  - apply whole_when_idle.
    exact (proj1 (@stop_recording_keeps_nothing_on cfg env out a e s R)).
  - rewrite (full_stop_recording_when_idle cfg env out a e s R). exact H.
Qed.

Lemma whole_start_recording cfg env out (c : Channel) :
  keeps_whole (Full.start_recording cfg env out c).
Proof.
  intros s H. destruct (recording s) eqn:R.
  - rewrite (full_start_recording_when_recording cfg env out c s R). exact H.
  - clear H. split_env env. split_out out.
    destruct s as [r vc cur fs au st]. cbn [recording] in R. subst r.
    destruct connect_ok0;
      [destruct pyaudio_ok0;
       [destruct open_ok0;
        [destruct announce_ok0; exact (@whole_session c [])|]|]|];
      apply whole_when_idle;
      destruct vc, au, st, stop_stream_ok0, stream_close_ok0, terminate_ok0,
        disconnect_ok0; reflexivity.
Qed.

Lemma whole_check_channel cfg env out (c : Channel) :
  keeps_whole (Full.check_channel cfg env out c).
Proof.
  intros s H. unfold Full.check_channel. rewrite !bind_gets.
  destruct ((3 <=? member_count c)%nat && negb (recording s));
    [apply whole_start_recording, H|].
  destruct ((member_count c <? 3)%nat && recording s
            && py_eq (current_recording_channel s) (Some c));
    [apply whole_stop_recording, H | exact H].
Qed.

Lemma whole_record_loop_iteration cfg env out :
  keeps_whole (Full.record_loop_iteration cfg env out).
Proof.
  intros s H. destruct (recording s) eqn:R.
  - destruct (H R) as (c & fs & E). subst s.
    destruct (read_data env) as [d|] eqn:D.
    + rewrite (@full_record_loop_iteration_reads cfg env out d
                 (session_of c fs) eq_refl ltac:(discriminate) D).
      exact (@whole_session c (fs ++ [d])).
    + destruct (@full_record_loop_iteration_fails cfg env out
                  (session_of c fs) eq_refl ltac:(discriminate) D)
        as (_ & F & _).
      rewrite F. apply whole_stop_recording. exact (@whole_session c fs).
  - unfold Full.record_loop_iteration, try_except.
    rewrite bind_gets, R. exact H.
Qed.

Lemma whole_stop cfg env out ctx : keeps_whole (Full.stop cfg env out ctx).
Proof.
  intros s H. unfold Full.stop. rewrite bind_gets.
  destruct (negb (recording s)); [apply whole_call, H|].
  rewrite bind_gets.
  destruct (author_in_channel ctx (current_recording_channel s));
    [|apply whole_call, H].
  apply whole_bind; [apply whole_stop_recording | intros; apply whole_call
                    | exact H].
Qed.

Lemma whole_force_stop cfg env out ctx :
  keeps_whole (Full.force_stop cfg env out ctx).
Proof.
  intros s H. unfold Full.force_stop. rewrite bind_gets.
  destruct (negb (recording s)); [apply whole_call, H|].
  destruct (administrator (author ctx)); [|apply whole_call, H].
  apply whole_bind; [apply whole_stop_recording | intros; apply whole_call
                    | exact H].
Qed.

Lemma whole_check_side cfg (w : World) (v : option VoiceState) :
  keeps_whole (Full.check_side cfg w v).
Proof.
  unfold Full.check_side. destruct v as [b|]; [|apply whole_ret].
  destruct (vs_channel b); [apply whole_check_channel | apply whole_ret].
Qed.

Lemma whole_check_channels cfg (vcs : list (World * Channel)) :
  keeps_whole (Full.check_channels cfg vcs).
Proof.
  induction vcs as [|[w vc] rest IH]; cbn [Full.check_channels];
    [apply whole_ret|].
  apply whole_bind; [apply whole_check_channel | intros; exact IH].
Qed.

Lemma whole_check_guilds cfg (guilds : list (list (World * Channel))) :
  keeps_whole (Full.check_guilds cfg guilds).
Proof.
  induction guilds as [|g rest IH]; cbn [Full.check_guilds];
    [apply whole_ret|].
  apply whole_bind; [apply whole_check_channels | intros; exact IH].
Qed.

Lemma whole_handle cfg (e : Full.Event) : keeps_whole (Full.handle cfg e).
Proof.
  destruct e; cbn [Full.handle].
  - apply whole_check_channel.
  - unfold Full.on_ready. apply whole_bind;
      [intros s H; exact H | intros; apply whole_check_guilds].
  - unfold Full.on_voice_state_update. apply whole_bind;
      [apply whole_check_side | intros; apply whole_check_side].
  - apply whole_start_recording.
  - destruct t as [|a e]; cbn [Full.run_task].
    + apply whole_bind;
        [apply whole_record_loop_iteration | intros; apply whole_ret].
    + apply whole_stop_recording.
  - apply whole_stop.
  - apply whole_force_stop.
  - intros s H. unfold cog_unload. rewrite bind_gets.
    destruct (recording s); exact H.
Qed.

(** X17. Along every run from the initial bot, handlers one at a time,
    whatever the events and whichever outside calls raise, the flag is on
    only on a bot that holds a whole session: a connection, the channel
    it is for, the audio device and the stream.  So the record loop
    always finds a stream to read and a stop always finds the device to
    ask the sample width of. *)
Theorem recording_bot_holds_a_whole_session cfg (es : list Full.Event) :
  let s := fst (Full.run cfg es init_bot) in
  whole s
  /\ (recording s = true ->
      stream s <> None /\ audio s <> None /\ voice_client s <> None
      /\ py_eq (current_recording_channel s)
               (match voice_client s with
                | Some (VoiceClientOf c) => Some c
                | None => None
                end) = true).
Proof.
  cbv zeta.
  assert (W : forall s, whole s -> whole (fst (Full.run cfg es s))).
  { induction es as [|e es IH]; intros s H; [exact H|].
    rewrite full_run_cons. cbn [fst]. apply IH, whole_handle, H. }
  pose proof (W init_bot (@whole_when_idle init_bot eq_refl)) as H.
  split; [exact H|]. intros R. destruct (H R) as (c & fs & E).
  rewrite E. cbn [session_of stream audio voice_client
                  current_recording_channel py_eq].
  unfold channel_eqb. rewrite Nat.eqb_refl.
  repeat split; discriminate.
Qed.
